(** * County demographics analytics ([build_data.py])

    A shallow embedding of the aggregation and filter functions of
    [build_data.py], and the properties the specification states about them.

    The functions are Python: integers are unbounded, percentages are IEEE 754
    binary64 numbers, the attribute mappings of a county are dictionaries from
    labels to numbers, and the arithmetic mixes the two kinds of number
    ([education_percent / 100], [... * county_population],
    [.get(key, 0) > threshold]).  The embedding keeps all of that:

    - [Float64]: binary64 arithmetic, bit for bit, from the Standard
      Library's executable specification [SpecFloat];
    - [Py]: Python's numbers ([int] and [float]), its coercions, the
      exceptions the arithmetic and the dictionary subscript can raise;
    - the functions of [build_data.py], one definition per source function,
      loops as accumulator-passing recursion, comprehensions as filters;
    - the theorems, one per claim. *)

From Stdlib Require Import ZArith Floats.SpecFloat.
From stdpp Require Import base option list gmap strings.

Local Open Scope Z_scope.

(** ** Exceptions and the error monad *)

(** The exceptions the modelled code can raise: a dictionary subscript on a
    missing key, a division by zero, an integer too large for a float. *)
Inductive exc : Type :=
  | KeyError (key : string)
  | ZeroDivisionError
  | OverflowError.

(** A computation returns a value or raises. *)
Definition result (A : Type) : Type := (exc + A)%type.

Definition ok {A : Type} (x : A) : result A := inr x.
Definition raise {A : Type} (e : exc) : result A := inl e.

#[global] Instance result_ret : MRet result := fun A x => inr x.
#[global] Instance result_bind : MBind result := fun A B f m =>
  match m with
  | inl e => inl e
  | inr x => f x
  end.

(** ** Binary64 floating point *)

Module Float64.

Definition prec : Z := 53.
Definition emax : Z := 1024.

Abbreviation float := spec_float.

Definition zero : float := S754_zero false.
Definition nan : float := S754_nan.

Definition add : float -> float -> float := SFadd prec emax.
Definition mul : float -> float -> float := SFmul prec emax.
Definition div : float -> float -> float := SFdiv prec emax.
Definition succ : float -> float := SFsucc prec emax.
Definition compare : float -> float -> option comparison := SFcompare.

Definition is_zero (x : float) : bool :=
  match x with
  | S754_zero _ => true
  | _ => false
  end.

Definition is_nan (x : float) : bool :=
  match x with
  | S754_nan => true
  | _ => false
  end.

(** An integer as an (unrounded) binary number [z * 2^0]. *)
Definition exact (z : Z) : float :=
  match z with
  | Z0 => S754_zero false
  | Zpos p => S754_finite false p 0
  | Zneg p => S754_finite true p 0
  end.

(** [float(z)]: the integer rounded to the nearest double, ties to even;
    Python raises [OverflowError] where the rounding overflows. *)
Definition of_int (z : Z) : result float :=
  match binary_normalize prec emax z 0 false with
  | S754_infinity _ => raise OverflowError
  | x => ok x
  end.

(** [a / b] on two integers, [b] nonzero: the quotient correctly rounded
    (not the quotient of the two rounded operands). *)
Definition int_quotient (a b : Z) : float := div (exact a) (exact b).

(** The double nearest to the decimal [digits / 10^scale], which is what a
    Python literal such as [20.9] denotes. *)
Definition decimal (digits : Z) (scale : Z) : float :=
  int_quotient digits (10 ^ scale).

(** Exact comparison of an integer with a double, as Python does it (no
    rounding of the integer). *)
Definition compare_int (z : Z) (x : float) : option comparison :=
  match x with
  | S754_nan => None
  | S754_infinity s => Some (if s then Gt else Lt)
  | S754_zero _ => Some (z ?= 0)
  | S754_finite s m e =>
      let v := if s then Zneg m else Zpos m in
      Some match e with
           | Zneg p => (z * 2 ^ Zpos p) ?= v
           | _ => z ?= v * 2 ^ e
           end
  end.

End Float64.

(** ** Python numbers and dictionaries *)

Module Py.

Import Float64.

(** A number is an [int] or a [float]. *)
Inductive num : Type :=
  | Int (z : Z)
  | Float (x : float).

(** Operands of a mixed operation are both taken to [float] first. *)
Definition to_float (a : num) : result float :=
  match a with
  | Int z => of_int z
  | Float x => ok x
  end.

(** [a + b] *)
Definition add (a b : num) : result num :=
  match a, b with
  | Int x, Int y => ok (Int (x + y))
  | _, _ =>
      x ← to_float a;
      y ← to_float b;
      ok (Float (Float64.add x y))
  end.

(** [a * b] *)
Definition mul (a b : num) : result num :=
  match a, b with
  | Int x, Int y => ok (Int (x * y))
  | _, _ =>
      x ← to_float a;
      y ← to_float b;
      ok (Float (Float64.mul x y))
  end.

(** [a / b], true division: always a [float]. *)
Definition truediv (a b : num) : result num :=
  match a, b with
  | Int x, Int y =>
      if y =? 0 then raise ZeroDivisionError
      else match int_quotient x y with
           | S754_infinity _ => raise OverflowError
           | q => ok (Float q)
           end
  | _, _ =>
      x ← to_float a;
      y ← to_float b;
      if is_zero y then raise ZeroDivisionError
      else ok (Float (Float64.div x y))
  end.

(** The order of two numbers; [None] when one of them is NaN. *)
Definition compare (a b : num) : option comparison :=
  match a, b with
  | Int x, Int y => Some (x ?= y)
  | Int x, Float y => compare_int x y
  | Float x, Int y => CompOpp <$> compare_int y x
  | Float x, Float y => Float64.compare x y
  end.

(** [a > b], [a < b], [a == b] *)
Definition gt (a b : num) : bool :=
  match compare a b with
  | Some Gt => true
  | _ => false
  end.

Definition lt (a b : num) : bool :=
  match compare a b with
  | Some Lt => true
  | _ => false
  end.

Definition eq (a b : num) : bool :=
  match compare a b with
  | Some Eq => true
  | _ => false
  end.

Definition is_nan (a : num) : bool :=
  match a with
  | Int _ => false
  | Float x => Float64.is_nan x
  end.

(** [a == 0] *)
Definition is_zero (a : num) : bool :=
  match a with
  | Int z => z =? 0
  | Float x => Float64.is_zero x
  end.

(** A [dict] with string keys and numeric values. *)
Abbreviation dict := (gmap string num).

(** [d[key]] *)
Definition subscript (d : dict) (key : string) : result num :=
  match d !! key with
  | Some v => ok v
  | None => raise (KeyError key)
  end.

(** [d.get(key, default)] *)
Definition get (d : dict) (key : string) (default : num) : num :=
  match d !! key with
  | Some v => v
  | None => default
  end.

(** The literal [digits / 10^scale] written with a decimal point. *)
Definition lit (digits scale : Z) : num := Float (decimal digits scale).

(** [sum(terms, start)]: the terms are produced one at a time and added to
    the running total from the left; the first exception ends the sum. *)
Fixpoint sum (terms : list (result num)) (start : num) : result num :=
  match terms with
  | [] => ok start
  | term :: terms =>
      x ← term;
      total ← add start x;
      sum terms total
  end.

(** A dictionary display [{k1: v1, k2: v2, ...}] with distinct keys. *)
Definition display (items : list (string * num)) : dict := list_to_map items.

End Py.

(** ** County records *)

(** Modelled from the spec: the class [CountyDemographics] of [data.py], which
    is not among the sources.  It is built from seven positional arguments
    (the age, name, education, ethnicity, income and population mappings and
    the state abbreviation) and is never mutated.  A field carries the name
    under which [build_data.py] reads it: the population mapping, which holds
    the entry ["2014 Population"], is read as [county.demographics]. *)
Record CountyDemographics : Type := {
  age : Py.dict;
  name : string;
  education : Py.dict;
  ethnicity : Py.dict;
  income : Py.dict;
  demographics : Py.dict;
  state : string
}.

(** ** The functions of [build_data.py] *)

(** [population_total]: the loop, from the running total. *)
Fixpoint population_total_loop (total_population : Py.num)
    (counties : list CountyDemographics) : result Py.num :=
  match counties with
  | [] => ok total_population
  | county :: counties =>
      population ← Py.subscript (demographics county) "2014 Population";
      total_population ← Py.add total_population population;
      population_total_loop total_population counties
  end.

Definition population_total (counties : list CountyDemographics) : result Py.num :=
  population_total_loop (Py.Int 0) counties.

(** [filter_by_state]: [[county for county in counties if county.state == state_abbr]] *)
Definition filter_by_state (counties : list CountyDemographics)
    (state_abbr : string) : list CountyDemographics :=
  List.filter (fun county => String.eqb (state county) state_abbr) counties.

(** [population_by_education]: the loop, from the running total. *)
Fixpoint population_by_education_loop (total_population : Py.num)
    (counties : list CountyDemographics) (education_key : string) : result Py.num :=
  match counties with
  | [] => ok total_population
  | county :: counties =>
      let education_data := education county in
      match education_data !! education_key with
      | Some education_percent =>
          county_population ← Py.subscript (demographics county) "2014 Population";
          share ← Py.truediv education_percent (Py.Int 100);
          sub_population ← Py.mul share county_population;
          total_population ← Py.add total_population sub_population;
          population_by_education_loop total_population counties education_key
      | None =>
          population_by_education_loop total_population counties education_key
      end
  end.

Definition population_by_education (counties : list CountyDemographics)
    (education_key : string) : result Py.num :=
  population_by_education_loop (Py.Float Float64.zero) counties education_key.

(** [population_by_ethnicity] *)
Fixpoint population_by_ethnicity_loop (total_population : Py.num)
    (counties : list CountyDemographics) (ethnicity_key : string) : result Py.num :=
  match counties with
  | [] => ok total_population
  | county :: counties =>
      let ethnicity_data := ethnicity county in
      match ethnicity_data !! ethnicity_key with
      | Some ethnicity_percent =>
          county_population ← Py.subscript (demographics county) "2014 Population";
          share ← Py.truediv ethnicity_percent (Py.Int 100);
          sub_population ← Py.mul share county_population;
          total_population ← Py.add total_population sub_population;
          population_by_ethnicity_loop total_population counties ethnicity_key
      | None =>
          population_by_ethnicity_loop total_population counties ethnicity_key
      end
  end.

Definition population_by_ethnicity (counties : list CountyDemographics)
    (ethnicity_key : string) : result Py.num :=
  population_by_ethnicity_loop (Py.Float Float64.zero) counties ethnicity_key.

(** [population_below_poverty_level] *)
Fixpoint population_below_poverty_level_loop (total_population : Py.num)
    (counties : list CountyDemographics) : result Py.num :=
  match counties with
  | [] => ok total_population
  | county :: counties =>
      let poverty_data := income county in
      match poverty_data !! "Persons Below Poverty Level" with
      | Some poverty_percent =>
          county_population ← Py.subscript (demographics county) "2014 Population";
          share ← Py.truediv poverty_percent (Py.Int 100);
          sub_population ← Py.mul share county_population;
          total_population ← Py.add total_population sub_population;
          population_below_poverty_level_loop total_population counties
      | None =>
          population_below_poverty_level_loop total_population counties
      end
  end.

Definition population_below_poverty_level (counties : list CountyDemographics) : result Py.num :=
  population_below_poverty_level_loop (Py.Float Float64.zero) counties.

(** [percent_by_education] *)
Definition percent_by_education (counties : list CountyDemographics)
    (education_key : string) : result Py.num :=
  total_population ← population_total counties;
  education_population ← population_by_education counties education_key;
  if Py.gt total_population (Py.Int 0) then
    quotient ← Py.truediv education_population total_population;
    Py.mul quotient (Py.Int 100)
  else ok (Py.Float Float64.zero).

(** [percent_by_ethnicity] *)
Definition percent_by_ethnicity (counties : list CountyDemographics)
    (ethnicity_key : string) : result Py.num :=
  total_population ← population_total counties;
  ethnicity_population ← population_by_ethnicity counties ethnicity_key;
  if Py.gt total_population (Py.Int 0) then
    quotient ← Py.truediv ethnicity_population total_population;
    Py.mul quotient (Py.Int 100)
  else ok (Py.Float Float64.zero).

(** [percent_below_poverty_level] *)
Definition percent_below_poverty_level (counties : list CountyDemographics) : result Py.num :=
  total_population ← population_total counties;
  poverty_population ← population_below_poverty_level counties;
  if Py.gt total_population (Py.Int 0) then
    quotient ← Py.truediv poverty_population total_population;
    Py.mul quotient (Py.Int 100)
  else ok (Py.Float Float64.zero).

(** The six threshold filters, each a comprehension over
    [mapping.get(key, 0) > threshold] or [... < threshold]. *)
Definition education_greater_than (counties : list CountyDemographics)
    (education_key : string) (threshold : Py.num) : list CountyDemographics :=
  List.filter (fun county =>
    Py.gt (Py.get (education county) education_key (Py.Int 0)) threshold) counties.

Definition education_less_than (counties : list CountyDemographics)
    (education_key : string) (threshold : Py.num) : list CountyDemographics :=
  List.filter (fun county =>
    Py.lt (Py.get (education county) education_key (Py.Int 0)) threshold) counties.

Definition ethnicity_greater_than (counties : list CountyDemographics)
    (ethnicity_key : string) (threshold : Py.num) : list CountyDemographics :=
  List.filter (fun county =>
    Py.gt (Py.get (ethnicity county) ethnicity_key (Py.Int 0)) threshold) counties.

Definition ethnicity_less_than (counties : list CountyDemographics)
    (ethnicity_key : string) (threshold : Py.num) : list CountyDemographics :=
  List.filter (fun county =>
    Py.lt (Py.get (ethnicity county) ethnicity_key (Py.Int 0)) threshold) counties.

Definition below_poverty_level_greater_than (counties : list CountyDemographics)
    (threshold : Py.num) : list CountyDemographics :=
  List.filter (fun county =>
    Py.gt (Py.get (income county) "Persons Below Poverty Level" (Py.Int 0)) threshold) counties.

Definition below_poverty_level_less_than (counties : list CountyDemographics)
    (threshold : Py.num) : list CountyDemographics :=
  List.filter (fun county =>
    Py.lt (Py.get (income county) "Persons Below Poverty Level" (Py.Int 0)) threshold) counties.

(** ** The three sub-population loops as one

    The three [population_by_*] loops differ in the mapping they consult and
    in where the key comes from; [sub_population_loop] abstracts over both. *)

Section SubPopulation.

Variable mapping : CountyDemographics -> Py.dict.
Variable key : string.

Fixpoint sub_population_loop (total_population : Py.num)
    (counties : list CountyDemographics) : result Py.num :=
  match counties with
  | [] => ok total_population
  | county :: counties =>
      match mapping county !! key with
      | Some percent =>
          county_population ← Py.subscript (demographics county) "2014 Population";
          share ← Py.truediv percent (Py.Int 100);
          sub_population ← Py.mul share county_population;
          total_population ← Py.add total_population sub_population;
          sub_population_loop total_population counties
      | None => sub_population_loop total_population counties
      end
  end.

End SubPopulation.

(** The tail shared by the three [percent_*] functions:
    [if total_population > 0: return (sub / total_population) * 100],
    then [return 0.0]. *)
Definition percent_of (sub_population total_population : Py.num) : result Py.num :=
  if Py.gt total_population (Py.Int 0) then
    quotient ← Py.truediv sub_population total_population;
    Py.mul quotient (Py.Int 100)
  else ok (Py.Float Float64.zero).

(** ** The operations as the specification words them *)

(** [population["2014 Population"]] of one county. *)
Definition population_2014 (county : CountyDemographics) : result Py.num :=
  Py.subscript (demographics county) "2014 Population".

(** The sum of a list of integers. *)
Definition Zsum (l : list Z) : Z := foldr Z.add 0 l.

(** The counties of [counties] have the integer populations [populations],
    in order. *)
Definition populations_are (counties : list CountyDemographics)
    (populations : list Z) : Prop :=
  Forall2 (fun county p => demographics county !! "2014 Population" = Some (Py.Int p))
    counties populations.

(** Total population: the sum of [population["2014 Population"]] over all
    counties. *)
Definition total_population_spec (counties : list CountyDemographics) : result Py.num :=
  Py.sum (map population_2014 counties) (Py.Int 0).

(** The mapping of the county contains the key. *)
Definition contains_key (mapping : CountyDemographics -> Py.dict) (key : string)
    (county : CountyDemographics) : bool :=
  bool_decide (is_Some (mapping county !! key)).

(** [(percentage_value / 100) * county["2014 Population"]] *)
Definition share_of (mapping : CountyDemographics -> Py.dict) (key : string)
    (county : CountyDemographics) : result Py.num :=
  percentage_value ← Py.subscript (mapping county) key;
  population ← population_2014 county;
  fraction ← Py.truediv percentage_value (Py.Int 100);
  Py.mul fraction population.

(** Sub-population: the sum of the shares over the counties whose mapping
    contains the key. *)
Definition sub_population_spec (mapping : CountyDemographics -> Py.dict)
    (key : string) (counties : list CountyDemographics) : result Py.num :=
  Py.sum (map (share_of mapping key) (List.filter (contains_key mapping key) counties))
    (Py.Float Float64.zero).

(** Percentage: [100 * sub_population / total_population] when the total is
    nonzero, [0.0] when it is zero. *)
Definition percent_spec (sub_population total_population : Py.num) : result Py.num :=
  if Py.eq total_population (Py.Int 0) then ok (Py.Float Float64.zero)
  else
    scaled ← Py.mul (Py.Int 100) sub_population;
    Py.truediv scaled total_population.

(** One and only one of three tests holds. *)
Definition one_of_three (a b c : bool) : Prop :=
  match a, b, c with
  | true, false, false | false, true, false | false, false, true => True
  | _, _, _ => False
  end.

(** The value a threshold filter compares: the entry of the mapping, [0] when
    the key is absent. *)
Definition attribute_value (mapping : Py.dict) (key : string) : Py.num :=
  match mapping !! key with
  | Some v => v
  | None => Py.Int 0
  end.

(** The counties whose value for the key equals the threshold. *)
Definition education_equal_to (counties : list CountyDemographics)
    (education_key : string) (threshold : Py.num) : list CountyDemographics :=
  List.filter (fun county =>
    Py.eq (attribute_value (education county) education_key) threshold) counties.

(** ** The three attributes

    The specification speaks of "each" sub-population function, "each"
    percent function and "every" threshold filter; an [attribute] names which
    one: education and ethnicity with their key, poverty with its fixed key. *)

Inductive attribute : Type :=
  | Education (education_key : string)
  | Ethnicity (ethnicity_key : string)
  | Poverty.

Definition mapping_of (a : attribute) : CountyDemographics -> Py.dict :=
  match a with
  | Education _ => education
  | Ethnicity _ => ethnicity
  | Poverty => income
  end.

Definition key_of (a : attribute) : string :=
  match a with
  | Education key | Ethnicity key => key
  | Poverty => "Persons Below Poverty Level"
  end.

Definition sub_population (a : attribute) (counties : list CountyDemographics) :
    result Py.num :=
  match a with
  | Education key => population_by_education counties key
  | Ethnicity key => population_by_ethnicity counties key
  | Poverty => population_below_poverty_level counties
  end.

Definition sub_population_from (a : attribute) (total_population : Py.num)
    (counties : list CountyDemographics) : result Py.num :=
  match a with
  | Education key => population_by_education_loop total_population counties key
  | Ethnicity key => population_by_ethnicity_loop total_population counties key
  | Poverty => population_below_poverty_level_loop total_population counties
  end.

Definition percent (a : attribute) (counties : list CountyDemographics) :
    result Py.num :=
  match a with
  | Education key => percent_by_education counties key
  | Ethnicity key => percent_by_ethnicity counties key
  | Poverty => percent_below_poverty_level counties
  end.

Definition greater_than (a : attribute) (counties : list CountyDemographics)
    (threshold : Py.num) : list CountyDemographics :=
  match a with
  | Education key => education_greater_than counties key threshold
  | Ethnicity key => ethnicity_greater_than counties key threshold
  | Poverty => below_poverty_level_greater_than counties threshold
  end.

Definition less_than (a : attribute) (counties : list CountyDemographics)
    (threshold : Py.num) : list CountyDemographics :=
  match a with
  | Education key => education_less_than counties key threshold
  | Ethnicity key => ethnicity_less_than counties key threshold
  | Poverty => below_poverty_level_less_than counties threshold
  end.

(** ** The sample records of [hw3_tests.py] *)

Module Sample.

Import Py.

Definition autauga : CountyDemographics := {|
  age := display [("Percent 65 and Older", lit 138 1);
                  ("Percent Under 18 Years", lit 252 1);
                  ("Percent Under 5 Years", lit 60 1)];
  name := "Autauga County";
  education := display [("Bachelor's Degree or Higher", lit 209 1);
                        ("High School or Higher", lit 856 1)];
  ethnicity := display [("American Indian and Alaska Native Alone", lit 5 1);
                        ("Asian Alone", lit 11 1);
                        ("Black Alone", lit 187 1);
                        ("Hispanic or Latino", lit 27 1);
                        ("Native Hawaiian and Other Pacific Islander Alone", lit 1 1);
                        ("Two or More Races", lit 18 1);
                        ("White Alone", lit 779 1);
                        ("White Alone, not Hispanic or Latino", lit 756 1)];
  income := display [("Per Capita Income", Int 24571);
                     ("Persons Below Poverty Level", lit 121 1);
                     ("Median Household Income", Int 53682)];
  demographics := display [("2010 Population", Int 54571);
                           ("2014 Population", Int 55395);
                           ("Population Percent Change", lit 15 1);
                           ("Population per Square Mile", lit 918 1)];
  state := "AL"
|}.

Definition crawford : CountyDemographics := {|
  age := display [("Percent 65 and Older", lit 153 1);
                  ("Percent Under 18 Years", lit 251 1);
                  ("Percent Under 5 Years", lit 60 1)];
  name := "Crawford County";
  education := display [("Bachelor's Degree or Higher", lit 143 1);
                        ("High School or Higher", lit 822 1)];
  ethnicity := display [("American Indian and Alaska Native Alone", lit 25 1);
                        ("Asian Alone", lit 16 1);
                        ("Black Alone", lit 16 1);
                        ("Hispanic or Latino", lit 67 1);
                        ("Native Hawaiian and Other Pacific Islander Alone", lit 1 1);
                        ("Two or More Races", lit 28 1);
                        ("White Alone", lit 915 1);
                        ("White Alone, not Hispanic or Latino", lit 856 1)];
  income := display [("Per Capita Income", Int 19477);
                     ("Persons Below Poverty Level", lit 202 1);
                     ("Median Household Income", Int 39479)];
  demographics := display [("2010 Population", Int 61948);
                           ("2014 Population", Int 61697);
                           ("Population Percent Change", lit (-4) 1);
                           ("Population per Square Mile", lit 1044 1)];
  state := "AR"
|}.

Definition san_luis_obispo : CountyDemographics := {|
  age := display [("Percent 65 and Older", lit 175 1);
                  ("Percent Under 18 Years", lit 181 1);
                  ("Percent Under 5 Years", lit 48 1)];
  name := "San Luis Obispo County";
  education := display [("Bachelor's Degree or Higher", lit 315 1);
                        ("High School or Higher", lit 896 1)];
  ethnicity := display [("American Indian and Alaska Native Alone", lit 14 1);
                        ("Asian Alone", lit 38 1);
                        ("Black Alone", lit 22 1);
                        ("Hispanic or Latino", lit 220 1);
                        ("Native Hawaiian and Other Pacific Islander Alone", lit 2 1);
                        ("Two or More Races", lit 34 1);
                        ("White Alone", lit 890 1);
                        ("White Alone, not Hispanic or Latino", lit 695 1)];
  income := display [("Per Capita Income", Int 29954);
                     ("Persons Below Poverty Level", lit 143 1);
                     ("Median Household Income", Int 58697)];
  demographics := display [("2010 Population", Int 269637);
                           ("2014 Population", Int 279083);
                           ("Population Percent Change", lit 35 1);
                           ("Population per Square Mile", lit 817 1)];
  state := "CA"
|}.

Definition yolo : CountyDemographics := {|
  age := display [("Percent 65 and Older", lit 115 1);
                  ("Percent Under 18 Years", lit 217 1);
                  ("Percent Under 5 Years", lit 58 1)];
  name := "Yolo County";
  education := display [("Bachelor's Degree or Higher", lit 379 1);
                        ("High School or Higher", lit 843 1)];
  ethnicity := display [("American Indian and Alaska Native Alone", lit 18 1);
                        ("Asian Alone", lit 138 1);
                        ("Black Alone", lit 30 1);
                        ("Hispanic or Latino", lit 315 1);
                        ("Native Hawaiian and Other Pacific Islander Alone", lit 6 1);
                        ("Two or More Races", lit 50 1);
                        ("White Alone", lit 759 1);
                        ("White Alone, not Hispanic or Latino", lit 483 1)];
  income := display [("Per Capita Income", Int 27730);
                     ("Persons Below Poverty Level", lit 191 1);
                     ("Median Household Income", Int 55918)];
  demographics := display [("2010 Population", Int 200849);
                           ("2014 Population", Int 207590);
                           ("Population Percent Change", lit 34 1);
                           ("Population per Square Mile", lit 1979 1)];
  state := "CA"
|}.

(** Two records that are not in the tests: one with no entries at all, and
    one whose population is a negative integer. *)
Definition unrecorded : CountyDemographics := {|
  age := display []; name := "Unrecorded County";
  education := display []; ethnicity := display []; income := display [];
  demographics := display []; state := "ZZ"
|}.

Definition indebted : CountyDemographics := {|
  age := display []; name := "Indebted County";
  education := display [("Bachelor's Degree or Higher", lit 500 1)];
  ethnicity := display []; income := display [];
  demographics := display [("2014 Population", Int (-100))]; state := "ZZ"
|}.

Definition butte : CountyDemographics := {|
  age := display [("Percent 65 and Older", lit 196 1);
                  ("Percent Under 18 Years", lit 256 1);
                  ("Percent Under 5 Years", lit 49 1)];
  name := "Butte County";
  education := display [("Bachelor's Degree or Higher", lit 179 1);
                        ("High School or Higher", lit 892 1)];
  ethnicity := display [("American Indian and Alaska Native Alone", lit 10 1);
                        ("Asian Alone", lit 3 1);
                        ("Black Alone", lit 2 1);
                        ("Hispanic or Latino", lit 58 1);
                        ("Native Hawaiian and Other Pacific Islander Alone", lit 2 1);
                        ("Two or More Races", lit 23 1);
                        ("White Alone", lit 961 1);
                        ("White Alone, not Hispanic or Latino", lit 906 1)];
  income := display [("Per Capita Income", Int 20995);
                     ("Persons Below Poverty Level", lit 157 1);
                     ("Median Household Income", Int 41131)];
  demographics := display [("2010 Population", Int 2891);
                           ("2014 Population", Int 2622);
                           ("Population Percent Change", lit (-94) 1);
                           ("Population per Square Mile", lit 13 1)];
  state := "ID"
|}.

Definition pettis : CountyDemographics := {|
  age := display [("Percent 65 and Older", lit 153 1);
                  ("Percent Under 18 Years", lit 251 1);
                  ("Percent Under 5 Years", lit 69 1)];
  name := "Pettis County";
  education := display [("Bachelor's Degree or Higher", lit 152 1);
                        ("High School or Higher", lit 818 1)];
  ethnicity := display [("American Indian and Alaska Native Alone", lit 7 1);
                        ("Asian Alone", lit 7 1);
                        ("Black Alone", lit 34 1);
                        ("Hispanic or Latino", lit 83 1);
                        ("Native Hawaiian and Other Pacific Islander Alone", lit 3 1);
                        ("Two or More Races", lit 19 1);
                        ("White Alone", lit 929 1);
                        ("White Alone, not Hispanic or Latino", lit 855 1)];
  income := display [("Per Capita Income", Int 19709);
                     ("Persons Below Poverty Level", lit 184 1);
                     ("Median Household Income", Int 38580)];
  demographics := display [("2010 Population", Int 42201);
                           ("2014 Population", Int 42225);
                           ("Population Percent Change", lit 1 1);
                           ("Population per Square Mile", lit 619 1)];
  state := "MO"
|}.

Definition weston : CountyDemographics := {|
  age := display [("Percent 65 and Older", lit 181 1);
                  ("Percent Under 18 Years", lit 216 1);
                  ("Percent Under 5 Years", lit 65 1)];
  name := "Weston County";
  education := display [("Bachelor's Degree or Higher", lit 172 1);
                        ("High School or Higher", lit 902 1)];
  ethnicity := display [("American Indian and Alaska Native Alone", lit 17 1);
                        ("Asian Alone", lit 4 1);
                        ("Black Alone", lit 7 1);
                        ("Hispanic or Latino", lit 42 1);
                        ("Native Hawaiian and Other Pacific Islander Alone", lit 0 1);
                        ("Two or More Races", lit 22 1);
                        ("White Alone", lit 950 1);
                        ("White Alone, not Hispanic or Latino", lit 915 1)];
  income := display [("Per Capita Income", Int 28764);
                     ("Persons Below Poverty Level", lit 112 1);
                     ("Median Household Income", Int 55461)];
  demographics := display [("2010 Population", Int 7208);
                           ("2014 Population", Int 7201);
                           ("Population Percent Change", lit (-1) 1);
                           ("Population per Square Mile", lit 30 1)];
  state := "WY"
|}.

(** The module-level list [reduced_data]. *)
Definition reduced_data : list CountyDemographics :=
  [autauga; crawford; san_luis_obispo; yolo; butte; pettis; weston].

End Sample.

(** ** Loading: [convert_county] and [get_data] *)

Module Raw.

(** A county in dictionary form, properly structured as [convert_county]
    assumes it: the seven entries the function subscripts, each of the kind
    the class takes.  A field carries the key of its entry. *)
Record county : Type := {
  Age : Py.dict;
  County : string;
  Education : Py.dict;
  Ethnicities : Py.dict;
  Income : Py.dict;
  Population : Py.dict;
  State : string
}.

(** [county['Income'] = income] *)
Definition set_Income (income : Py.dict) (c : county) : county := {|
  Age := Age c; County := County c; Education := Education c;
  Ethnicities := Ethnicities c; Income := income;
  Population := Population c; State := State c
|}.

End Raw.

(** [convert_county]: the function rewrites the income dictionary of its
    argument in place and builds the object from the argument's entries, so
    the embedding returns the argument as the call leaves it together with
    the object. *)
Definition convert_county (county : Raw.county) : Raw.county * CountyDemographics :=
  let county :=
    match Raw.Income county !! "Median Houseold Income" with
    | Some median =>
        let income := <["Median Household Income" := median]> (Raw.Income county) in
        let income := delete "Median Houseold Income" income in
        Raw.set_Income income county
    | None => county
    end in
  (county,
   {| age := Raw.Age county;
      name := Raw.County county;
      education := Raw.Education county;
      ethnicity := Raw.Ethnicities county;
      income := Raw.Income county;
      demographics := Raw.Population county;
      state := Raw.State county |}).

(** The object [CountyDemographics(county['Age'], ..., county['State'])]
    alone, without the rewriting of the income dictionary. *)
Definition as_object (county : Raw.county) : CountyDemographics :=
  {| age := Raw.Age county;
     name := Raw.County county;
     education := Raw.Education county;
     ethnicity := Raw.Ethnicities county;
     income := Raw.Income county;
     demographics := Raw.Population county;
     state := Raw.State county |}.

(** The state [get_data] works on: the module variable [_converted], and how
    many times [county_demographics.get_report()] has been called. *)
Record loader : Type := {
  _converted : option (list CountyDemographics);
  fetched : nat
}.

(** The module as imported: [_converted = None], nothing fetched. *)
Definition imported : loader := {| _converted := None; fetched := 0 |}.

Section GetData.

(** [county_demographics.get_report] is not among the sources: [get_report n]
    is the report its call number [n] returns. *)
Variable get_report : nat -> list Raw.county.

(** [get_data]: [if not _converted] holds for [None] and for the empty list. *)
Definition get_data (st : loader) : list CountyDemographics * loader :=
  match _converted st with
  | Some (county :: counties) => (county :: counties, st)
  | _ =>
      let report := get_report (fetched st) in
      let converted := map (fun county => snd (convert_county county)) report in
      (converted, {| _converted := Some converted; fetched := S (fetched st) |})
  end.

(** [n] calls of [get_data] in a row: the lists returned, and the state left. *)
Fixpoint get_data_times (n : nat) (st : loader) :
    list (list CountyDemographics) * loader :=
  match n with
  | O => ([], st)
  | S n =>
      let '(counties, st) := get_data st in
      let '(rest, st) := get_data_times n st in
      (counties :: rest, st)
  end.

End GetData.

(** What the loader holds never has the misspelt key. *)
Definition well_kept (st : loader) : Prop :=
  forall counties, _converted st = Some counties ->
    Forall (fun c => income c !! "Median Houseold Income" = None) counties.

(** Two counties give an attribute's statistics the same input: the same
    entry under the attribute's key, the same population mapping, the same
    state. *)
Definition same_statistics (a : attribute) (c d : CountyDemographics) : Prop :=
  mapping_of a c !! key_of a = mapping_of a d !! key_of a /\
  demographics c = demographics d /\
  state c = state d.

(** ** More of the operations as the specification words them *)

(** The counties whose value for the attribute equals the threshold. *)
Definition equal_to (a : attribute) (counties : list CountyDemographics)
    (threshold : Py.num) : list CountyDemographics :=
  List.filter (fun county =>
    Py.eq (attribute_value (mapping_of a county) (key_of a)) threshold) counties.

(** The 2014 population of a county when it is an integer, [0] otherwise. *)
Definition int_population (county : CountyDemographics) : Z :=
  match demographics county !! "2014 Population" with
  | Some (Py.Int p) => p
  | _ => 0
  end.

(** A number is a [float]. *)
Definition is_float (a : Py.num) : Prop :=
  match a with
  | Py.Float _ => True
  | Py.Int _ => False
  end.

(** ** Dictionaries as a report would hold them *)

Module RawSample.

Import Py.

(** The first sample record in dictionary form. *)
Definition autauga : Raw.county := {|
  Raw.Age := age Sample.autauga;
  Raw.County := name Sample.autauga;
  Raw.Education := education Sample.autauga;
  Raw.Ethnicities := ethnicity Sample.autauga;
  Raw.Income := income Sample.autauga;
  Raw.Population := demographics Sample.autauga;
  Raw.State := state Sample.autauga
|}.

(** The same with the median household income under the misspelt key. *)
Definition autauga_misspelt : Raw.county :=
  Raw.set_Income
    (display [("Per Capita Income", Int 24571);
              ("Persons Below Poverty Level", lit 121 1);
              ("Median Houseold Income", Int 53682)])
    autauga.

(** And with both spellings: an old value under the right key. *)
Definition autauga_both : Raw.county :=
  Raw.set_Income
    (display [("Per Capita Income", Int 24571);
              ("Persons Below Poverty Level", lit 121 1);
              ("Median Household Income", Int 1);
              ("Median Houseold Income", Int 53682)])
    autauga.

(** A provider that has nothing on its first call and one county afterwards. *)
Definition late_report (n : nat) : list Raw.county :=
  match n with
  | O => []
  | S _ => [autauga_misspelt]
  end.

(** A county with an education entry and no population entry. *)
Definition unpopulated : CountyDemographics := {|
  age := display []; name := "Unpopulated County";
  education := display [("Bachelor's Degree or Higher", lit 209 1)];
  ethnicity := display []; income := display [];
  demographics := display []; state := "ZZ"
|}.

End RawSample.

(** ** The value of a number *)

(** A number is an integer or a binary64 number in its canonical form. *)
Definition valid (a : Py.num) : Prop :=
  match a with
  | Py.Int _ => True
  | Py.Float x => valid_binary Float64.prec Float64.emax x = true
  end.

(** A finite number, in units of [2^-1074] (the smallest positive double):
    an integer for every integer and every finite double. *)
Definition scaled (a : Py.num) : Z :=
  match a with
  | Py.Int z => z * 2 ^ 1074
  | Py.Float (S754_finite s m e) => (if s then Zneg m else Zpos m) * 2 ^ (e + 1074)
  | Py.Float _ => 0
  end.

(** [-1] for minus infinity, [1] for plus infinity, [0] for a finite number. *)
Definition rank (a : Py.num) : Z :=
  match a with
  | Py.Float (S754_infinity s) => if s then -1 else 1
  | _ => 0
  end.

(** The order of two numbers by rank first and value second. *)
Definition compare_values (a b : Py.num) : comparison :=
  match rank a ?= rank b with
  | Eq => scaled a ?= scaled b
  | c => c
  end.

(** ** Running totals *)

(** The counties of the list whose mapping contains the attribute's key, in
    list order: the counties that add a term to the sub-population. *)
Definition holders (a : attribute) (counties : list CountyDemographics) :
    list CountyDemographics :=
  List.filter (contains_key (mapping_of a) (key_of a)) counties.

(** A double whose exponent, when it is finite, is not below that of the
    smallest positive double. *)
Definition exponent_in_range (x : Float64.float) : Prop :=
  match x with
  | S754_finite _ _ e => -1074 <= e
  | _ => True
  end.

(** What the running total of a sub-population loop can be: a [float] with
    its exponent in range, and not minus zero. *)
Definition running_total (a : Py.num) : Prop :=
  match a with
  | Py.Float x => exponent_in_range x /\ x <> S754_zero true
  | Py.Int _ => False
  end.

(** * Properties *)

(** ** The number model on known values *)

(** [0.1 + 0.2] is the double next above [0.3]. *)
Example add_tenths :
  Py.add (Py.lit 1 1) (Py.lit 2 1) = ok (Py.Float (Float64.succ (Float64.decimal 3 1))).
Proof. vm_compute. reflexivity. Qed.

(** [float(2**53 + 1)] rounds to [2**53], yet [2**53 + 1 > float(2**53)]. *)
Example int_to_float_rounds :
  Float64.of_int (2 ^ 53 + 1) = Float64.of_int (2 ^ 53) /\
  Py.gt (Py.Int (2 ^ 53 + 1)) (Py.Float (Float64.exact (2 ^ 53))) = true.
Proof. split; vm_compute; reflexivity. Qed.

(** [float(2**1024)] raises, and so does [1.5 * 2**1024]. *)
Example int_to_float_overflows :
  Float64.of_int (2 ^ 1024) = raise OverflowError /\
  Py.mul (Py.lit 15 1) (Py.Int (2 ^ 1024)) = raise OverflowError.
Proof. split; vm_compute; reflexivity. Qed.

(** [1 / 0] and [1.0 / 0] raise; [0 / -5] is [-0.0]. *)
Example division_by_zero :
  Py.truediv (Py.Int 1) (Py.Int 0) = raise ZeroDivisionError /\
  Py.truediv (Py.lit 10 1) (Py.Int 0) = raise ZeroDivisionError /\
  Py.truediv (Py.Int 0) (Py.Int (-5)) = ok (Py.Float (S754_zero true)).
Proof. repeat split; vm_compute; reflexivity. Qed.

(** ** The error monad *)

(** Case analysis on the computation a bind starts with. *)
Ltac step_bind :=
  match goal with
  | |- context [mbind _ ?m] =>
      lazymatch m with
      | inr _ => fail
      | inl _ => fail
      | _ => let E := fresh "E" in destruct m eqn:E; simpl
      end
  end.

(** ** Total population *)

Lemma population_total_loop_sum total counties :
  population_total_loop total counties = Py.sum (map population_2014 counties) total.
Proof.
  unfold population_2014. revert total.
  induction counties as [|county counties IH]; intros total; simpl.
  - reflexivity.
  - destruct (Py.subscript _ _) as [e|p]; simpl; [reflexivity|].
    destruct (Py.add total p) as [e|t]; simpl; [reflexivity|]. apply IH.
Qed.

Lemma population_total_loop_int total counties populations :
  populations_are counties populations ->
  population_total_loop (Py.Int total) counties = ok (Py.Int (total + Zsum populations)).
Proof.
  intros H. revert total.
  induction H as [|county p counties populations Hp _ IH]; intros total; simpl.
  - f_equal. f_equal. unfold Zsum. simpl. lia.
  - unfold Py.subscript. rewrite Hp. simpl. rewrite IH.
    f_equal. f_equal. unfold Zsum. simpl. lia.
Qed.

Lemma population_total_int counties populations :
  populations_are counties populations ->
  population_total counties = ok (Py.Int (Zsum populations)).
Proof.
  intros H. unfold population_total.
  rewrite (population_total_loop_int 0 counties populations H). reflexivity.
Qed.

Lemma populations_are_app cs ds pc pd :
  populations_are cs pc -> populations_are ds pd -> populations_are (cs ++ ds) (pc ++ pd).
Proof. apply Forall2_app. Qed.

Lemma Zsum_app l k : Zsum (l ++ k) = Zsum l + Zsum k.
Proof. unfold Zsum. induction l as [|x l IH]; simpl; lia. Qed.

(** C1: [population_total] returns the sum of the ["2014 Population"]
    entries of the counties, added up from the integer [0] in list order:
    it is Python's [sum] of the entries; when the entries are the integers
    [populations] it is the integer [Zsum populations]; and it is the integer
    [0] on the empty list. *)
Theorem population_total_is_sum :
  (forall counties, population_total counties = total_population_spec counties) /\
  (forall counties populations,
      populations_are counties populations ->
      population_total counties = ok (Py.Int (Zsum populations))) /\
  population_total [] = ok (Py.Int 0).
Proof.
  split; [|split].
  - intros counties. apply population_total_loop_sum.
  - apply population_total_int.
  - reflexivity.
Qed.

Lemma population_total_is_sum_witness :
  populations_are Sample.reduced_data [55395; 61697; 279083; 207590; 2622; 42225; 7201] /\
  population_total Sample.reduced_data = ok (Py.Int 655813).
Proof.
  assert (H : populations_are Sample.reduced_data [55395; 61697; 279083; 207590; 2622; 42225; 7201])
    by (repeat constructor).
  split; [exact H|].
  exact (proj1 (proj2 population_total_is_sum) _ _ H).
Defined.

(** ** Sub-populations *)

Section SubPopulationFacts.

Variable mapping : CountyDemographics -> Py.dict.
Variable key : string.

Let loop := sub_population_loop mapping key.

Lemma sub_population_loop_app total cs ds :
  loop total (cs ++ ds) = (t ← loop total cs; loop t ds).
Proof.
  subst loop. revert total.
  induction cs as [|county cs IH]; intros total; simpl; [reflexivity|].
  destruct (mapping county !! key) as [percent|]; [|apply IH].
  repeat (step_bind; [reflexivity|]). apply IH.
Qed.

Lemma sub_population_loop_skip total county cs :
  mapping county !! key = None -> loop total (county :: cs) = loop total cs.
Proof. intros H. subst loop. simpl. rewrite H. reflexivity. Qed.

Lemma sub_population_loop_skip_app total before county after :
  mapping county !! key = None ->
  loop total (before ++ county :: after) = loop total (before ++ after).
Proof.
  intros H. rewrite !sub_population_loop_app.
  destruct (loop total before) as [e|t]; simpl; [reflexivity|].
  apply sub_population_loop_skip, H.
Qed.

Lemma share_of_present county percent :
  mapping county !! key = Some percent ->
  share_of mapping key county =
    (county_population ← Py.subscript (demographics county) "2014 Population";
     share ← Py.truediv percent (Py.Int 100);
     Py.mul share county_population).
Proof.
  intros H. unfold share_of, population_2014, Py.subscript.
  rewrite H. reflexivity.
Qed.

Lemma sub_population_loop_sum total cs :
  loop total cs =
  Py.sum (map (share_of mapping key) (List.filter (contains_key mapping key) cs)) total.
Proof.
  subst loop. revert total.
  induction cs as [|county cs IH]; intros total; simpl; [reflexivity|].
  unfold contains_key at 1.
  destruct (mapping county !! key) as [percent|] eqn:Hkey.
  - rewrite bool_decide_eq_true_2 by eauto. simpl.
    rewrite (share_of_present county percent Hkey).
    repeat (step_bind; [reflexivity|]). apply IH.
  - rewrite bool_decide_eq_false_2 by (intros [? ?]; discriminate). apply IH.
Qed.

End SubPopulationFacts.

Lemma population_by_education_loop_eq total cs k :
  population_by_education_loop total cs k = sub_population_loop education k total cs.
Proof.
  revert total. induction cs as [|county cs IH]; intros total; simpl; [reflexivity|].
  destruct (education county !! k); [|apply IH].
  repeat (step_bind; [reflexivity|]). apply IH.
Qed.

Lemma population_by_ethnicity_loop_eq total cs k :
  population_by_ethnicity_loop total cs k = sub_population_loop ethnicity k total cs.
Proof.
  revert total. induction cs as [|county cs IH]; intros total; simpl; [reflexivity|].
  destruct (ethnicity county !! k); [|apply IH].
  repeat (step_bind; [reflexivity|]). apply IH.
Qed.

Lemma population_below_poverty_level_loop_eq total cs :
  population_below_poverty_level_loop total cs =
  sub_population_loop income "Persons Below Poverty Level" total cs.
Proof.
  revert total. induction cs as [|county cs IH]; intros total; simpl; [reflexivity|].
  destruct (income county !! "Persons Below Poverty Level"); [|apply IH].
  repeat (step_bind; [reflexivity|]). apply IH.
Qed.

(** The three source loops are the one loop, at their mapping and key. *)
Lemma sub_population_from_eq a total cs :
  sub_population_from a total cs =
  sub_population_loop (mapping_of a) (key_of a) total cs.
Proof.
  destruct a as [k|k|]; simpl.
  - apply population_by_education_loop_eq.
  - apply population_by_ethnicity_loop_eq.
  - apply population_below_poverty_level_loop_eq.
Qed.

Lemma sub_population_eq a cs :
  sub_population a cs =
  sub_population_loop (mapping_of a) (key_of a) (Py.Float Float64.zero) cs.
Proof. rewrite <- sub_population_from_eq. destruct a; reflexivity. Qed.

(** C2: each sub-population function returns the sum, from [0.0] and in list
    order, of [(percentage_value / 100) * population["2014 Population"]] over
    exactly the counties whose mapping contains the key; a county without the
    key changes nothing wherever it stands in the list, and on its own gives
    [0.0] without an exception, whatever else it lacks. *)
Theorem sub_population_is_sum (a : attribute) :
  (forall cs, sub_population a cs = sub_population_spec (mapping_of a) (key_of a) cs) /\
  (forall before county after,
      mapping_of a county !! key_of a = None ->
      sub_population a (before ++ county :: after) = sub_population a (before ++ after) /\
      sub_population a [county] = ok (Py.Float Float64.zero)).
Proof.
  split.
  - intros cs. rewrite sub_population_eq. apply sub_population_loop_sum.
  - intros before county after Hkey. rewrite !sub_population_eq. split.
    + apply sub_population_loop_skip_app, Hkey.
    + simpl. rewrite Hkey. reflexivity.
Qed.

Lemma sub_population_is_sum_witness :
  education Sample.unrecorded !! "Bachelor's Degree or Higher" = None /\
  population_by_education [Sample.autauga; Sample.unrecorded; Sample.crawford]
      "Bachelor's Degree or Higher" =
    population_by_education [Sample.autauga; Sample.crawford]
      "Bachelor's Degree or Higher" /\
  population_by_education [Sample.unrecorded] "Bachelor's Degree or Higher" =
    ok (Py.Float Float64.zero).
Proof.
  split; [reflexivity|].
  exact (proj2 (sub_population_is_sum (Education "Bachelor's Degree or Higher"))
           [Sample.autauga] Sample.unrecorded [Sample.crawford] eq_refl).
Defined.

(** ** Rounding a nonzero integer never gives zero *)

Lemma iter_pos_nat {A : Type} (f : A -> A) p x :
  SpecFloat.iter_pos f p x = Nat.iter (Pos.to_nat p) f x.
Proof.
  revert x. induction p as [p IH|p IH|]; intros x.
  - change (SpecFloat.iter_pos f p~1 x)
      with (SpecFloat.iter_pos f p (SpecFloat.iter_pos f p (f x))).
    rewrite !IH, Pos2Nat.inj_xI, Nat.iter_succ_r.
    replace (2 * Pos.to_nat p)%nat with (Pos.to_nat p + Pos.to_nat p)%nat by lia.
    rewrite Nat.iter_add. reflexivity.
  - change (SpecFloat.iter_pos f p~0 x)
      with (SpecFloat.iter_pos f p (SpecFloat.iter_pos f p x)).
    rewrite !IH, Pos2Nat.inj_xO.
    replace (2 * Pos.to_nat p)%nat with (Pos.to_nat p + Pos.to_nat p)%nat by lia.
    rewrite Nat.iter_add. reflexivity.
  - reflexivity.
Qed.

Lemma shr_keeps_positive n : forall p r s,
  (n < Pos.to_nat (digits2_pos p))%nat ->
  exists p' r' s',
    Nat.iter n shr_1 {| shr_m := Zpos p; shr_r := r; shr_s := s |} =
    {| shr_m := Zpos p'; shr_r := r'; shr_s := s' |}.
Proof.
  induction n as [|n IH]; intros p r s Hn.
  - simpl. eauto.
  - rewrite Nat.iter_succ_r.
    destruct p as [q|q|]; simpl in *.
    + apply IH. lia.
    + apply IH. lia.
    + lia.
Qed.

Lemma shr_fexp_positive p e l :
  -1074 <= e ->
  exists p' r' s' e',
    shr_fexp Float64.prec Float64.emax (Zpos p) e l =
      ({| shr_m := Zpos p'; shr_r := r'; shr_s := s' |}, e') /\ -1074 <= e'.
Proof.
  intros He. unfold shr_fexp, shr.
  assert (Hrec : exists r s, shr_record_of_loc (Zpos p) l =
                             {| shr_m := Zpos p; shr_r := r; shr_s := s |}).
  { destruct l as [|[]]; simpl; eauto. }
  destruct Hrec as (r & s & ->).
  destruct (fexp Float64.prec Float64.emax (Zdigits2 (Z.pos p) + e) - e) as [|q|q] eqn:Hn.
  - eauto 10.
  - rewrite iter_pos_nat.
    destruct (shr_keeps_positive (Pos.to_nat q) p r s) as (p' & r' & s' & ->).
    + unfold fexp, emin, Float64.prec, Float64.emax in Hn. simpl in Hn. lia.
    + exists p', r', s'. eexists. split; [reflexivity|lia].
  - eauto 10.
Qed.

Lemma round_nearest_even_positive p l :
  exists p', round_nearest_even (Zpos p) l = Zpos p'.
Proof.
  destruct l as [|[]]; unfold round_nearest_even.
  - eauto.
  - destruct (Z.even (Z.pos p)); [eauto | exists (p + 1)%positive; reflexivity].
  - eauto.
  - exists (p + 1)%positive. reflexivity.
Qed.

Lemma binary_round_aux_not_zero sx p e l :
  -1074 <= e ->
  Float64.is_zero (binary_round_aux Float64.prec Float64.emax sx (Zpos p) e l) = false.
Proof.
  intros He. unfold binary_round_aux.
  destruct (shr_fexp_positive p e l He) as (p1 & r1 & s1 & e1 & -> & He1).
  cbn [shr_m].
  destruct (round_nearest_even_positive p1
              (loc_of_shr_record {| shr_m := Z.pos p1; shr_r := r1; shr_s := s1 |}))
    as (p2 & ->).
  destruct (shr_fexp_positive p2 e1 loc_Exact He1) as (p3 & r3 & s3 & e3 & -> & _).
  cbn [shr_m]. destruct (_ <=? _); reflexivity.
Qed.

Lemma binary_round_not_zero sx p e :
  -1074 <= e ->
  Float64.is_zero (binary_round Float64.prec Float64.emax sx p e) = false.
Proof.
  intros He. unfold binary_round, shl_align.
  destruct (fexp Float64.prec Float64.emax (Z.pos (digits2_pos p) + e) - e) eqn:Hn;
    apply binary_round_aux_not_zero; try exact He.
  unfold fexp, emin, Float64.prec, Float64.emax. lia.
Qed.

Lemma of_int_positive_not_zero z x :
  0 < z -> Float64.of_int z = ok x -> Float64.is_zero x = false.
Proof.
  intros Hz. destruct z as [|p|p]; try lia.
  unfold Float64.of_int, binary_normalize.
  pose proof (binary_round_not_zero false p 0 ltac:(lia)) as H.
  destruct (binary_round _ _ _ _ _); try discriminate; intros [= <-]; exact H.
Qed.

Lemma of_int_negative_not_zero z x :
  z < 0 -> Float64.of_int z = ok x -> Float64.is_zero x = false.
Proof.
  intros Hz. destruct z as [|p|p]; try lia.
  unfold Float64.of_int, binary_normalize.
  pose proof (binary_round_not_zero true p 0 ltac:(lia)) as H.
  destruct (binary_round _ _ _ _ _); try discriminate; intros [= <-]; exact H.
Qed.

Lemma of_int_not_zero z x :
  z <> 0 -> Float64.of_int z = ok x -> Float64.is_zero x = false.
Proof.
  intros Hz. destruct (Z.lt_trichotomy z 0) as [H|[H|H]]; [|contradiction|].
  - apply of_int_negative_not_zero, H.
  - apply of_int_positive_not_zero, H.
Qed.

(** ** No function divides by zero *)

Lemma bind_no_zero_division {A B : Type} (m : result A) (f : A -> result B) :
  m <> raise ZeroDivisionError ->
  (forall x, m = ok x -> f x <> raise ZeroDivisionError) ->
  (m ≫= f) <> raise ZeroDivisionError.
Proof.
  intros Hm Hf. destruct m as [e|x]; simpl.
  - intros [= ->]. apply Hm. reflexivity.
  - apply Hf. reflexivity.
Qed.

Lemma of_int_no_zero_division z : Float64.of_int z <> raise ZeroDivisionError.
Proof. unfold Float64.of_int. destruct (binary_normalize _ _ _ _ _); discriminate. Qed.

Lemma to_float_no_zero_division a : Py.to_float a <> raise ZeroDivisionError.
Proof. destruct a; simpl; [apply of_int_no_zero_division | discriminate]. Qed.

Lemma add_no_zero_division a b : Py.add a b <> raise ZeroDivisionError.
Proof.
  destruct a as [x|x], b as [y|y]; try discriminate; unfold Py.add;
    (apply bind_no_zero_division; [apply to_float_no_zero_division|]; intros ? _;
     apply bind_no_zero_division; [apply to_float_no_zero_division|]; intros ? _;
     discriminate).
Qed.

Lemma mul_no_zero_division a b : Py.mul a b <> raise ZeroDivisionError.
Proof.
  destruct a as [x|x], b as [y|y]; try discriminate; unfold Py.mul;
    (apply bind_no_zero_division; [apply to_float_no_zero_division|]; intros ? _;
     apply bind_no_zero_division; [apply to_float_no_zero_division|]; intros ? _;
     discriminate).
Qed.

Lemma to_float_not_zero b y :
  Py.is_zero b = false -> Py.to_float b = ok y -> Float64.is_zero y = false.
Proof.
  destruct b as [z|x]; simpl.
  - intros Hz%Z.eqb_neq. apply of_int_not_zero, Hz.
  - intros Hx [= <-]. exact Hx.
Qed.

Lemma truediv_no_zero_division a b :
  Py.is_zero b = false -> Py.truediv a b <> raise ZeroDivisionError.
Proof.
  intros Hb.
  assert (Hmixed :
    (x ← Py.to_float a; y ← Py.to_float b;
     if Float64.is_zero y then raise ZeroDivisionError
     else ok (Py.Float (Float64.div x y))) <> raise ZeroDivisionError).
  { apply bind_no_zero_division; [apply to_float_no_zero_division|]; intros x _.
    apply bind_no_zero_division; [apply to_float_no_zero_division|]; intros y Hy.
    rewrite (to_float_not_zero b y Hb Hy). discriminate. }
  destruct a as [x|x], b as [y|y]; try exact Hmixed.
  unfold Py.truediv. simpl in Hb. rewrite Hb.
  destruct (Float64.int_quotient x y); discriminate.
Qed.

Lemma gt_zero_not_zero t : Py.gt t (Py.Int 0) = true -> Py.is_zero t = false.
Proof.
  unfold Py.gt. destruct t as [z|x]; simpl.
  - destruct (Z.compare_spec z 0); try discriminate. intros _. apply Z.eqb_neq. lia.
  - destruct x; simpl; try reflexivity; discriminate.
Qed.

Lemma subscript_no_zero_division d k : Py.subscript d k <> raise ZeroDivisionError.
Proof. unfold Py.subscript. destruct (d !! k); discriminate. Qed.

Lemma population_total_loop_no_zero_division total cs :
  population_total_loop total cs <> raise ZeroDivisionError.
Proof.
  revert total. induction cs as [|county cs IH]; intros total; simpl; [discriminate|].
  apply bind_no_zero_division; [apply subscript_no_zero_division|]; intros p _.
  apply bind_no_zero_division; [apply add_no_zero_division|]; intros t _.
  apply IH.
Qed.

Lemma sub_population_loop_no_zero_division mapping key total cs :
  sub_population_loop mapping key total cs <> raise ZeroDivisionError.
Proof.
  revert total. induction cs as [|county cs IH]; intros total; simpl; [discriminate|].
  destruct (mapping county !! key) as [percent|]; [|apply IH].
  apply bind_no_zero_division; [apply subscript_no_zero_division|]; intros p _.
  apply bind_no_zero_division; [apply truediv_no_zero_division; reflexivity|];
    intros share _.
  apply bind_no_zero_division; [apply mul_no_zero_division|]; intros sub _.
  apply bind_no_zero_division; [apply add_no_zero_division|]; intros t _.
  apply IH.
Qed.

Lemma percent_of_no_zero_division sub total :
  percent_of sub total <> raise ZeroDivisionError.
Proof.
  unfold percent_of. destruct (Py.gt total (Py.Int 0)) eqn:Hgt; [|discriminate].
  apply bind_no_zero_division;
    [apply truediv_no_zero_division, gt_zero_not_zero, Hgt|]; intros q _.
  apply mul_no_zero_division.
Qed.

(** ** Percentages *)

Lemma percent_of_positive sub total :
  Py.gt total (Py.Int 0) = true ->
  percent_of sub total = (quotient ← Py.truediv sub total; Py.mul quotient (Py.Int 100)).
Proof. intros H. unfold percent_of. rewrite H. reflexivity. Qed.

Lemma percent_of_not_positive sub total :
  Py.gt total (Py.Int 0) = false -> percent_of sub total = ok (Py.Float Float64.zero).
Proof. intros H. unfold percent_of. rewrite H. reflexivity. Qed.

Lemma gt_zero_int z : Py.gt (Py.Int z) (Py.Int 0) = bool_decide (0 < z).
Proof.
  unfold Py.gt. simpl. destruct (Z.compare_spec z 0); symmetry;
    (apply bool_decide_eq_true_2 || apply bool_decide_eq_false_2); lia.
Qed.

(** Each percent function is the total, the sub-population, and the guarded
    quotient, in this order. *)
Lemma percent_eq a cs :
  percent a cs =
  (total ← population_total cs; sub ← sub_population a cs; percent_of sub total).
Proof. destruct a; reflexivity. Qed.

Lemma sub_population_no_zero_division a cs :
  sub_population a cs <> raise ZeroDivisionError.
Proof. rewrite sub_population_eq. apply sub_population_loop_no_zero_division. Qed.

(** ** The single-county scenario *)

(** C8: for a single county with 2014 population [55395] and [20.9] percent
    holders of a bachelor's degree, the total is [55395] and the education
    sub-population is exactly [11577.555], as stated.  [percent_by_education]
    then returns the double next above [20.9] (printed
    [20.900000000000002]) and not [20.9], the value that the test of
    [hw3_tests.py] asserts and that the stated formula,
    [100 * sub_population / total_population], gives on this sub-population
    and this total. *)
Theorem single_county_scenario (county : CountyDemographics) :
  demographics county !! "2014 Population" = Some (Py.Int 55395) ->
  education county !! "Bachelor's Degree or Higher" = Some (Py.lit 209 1) ->
  population_total [county] = ok (Py.Int 55395) /\
  population_by_education [county] "Bachelor's Degree or Higher" =
    ok (Py.lit 11577555 3) /\
  percent_by_education [county] "Bachelor's Degree or Higher" =
    ok (Py.Float (Float64.succ (Float64.decimal 209 1))) /\
  Py.eq (Py.Float (Float64.succ (Float64.decimal 209 1))) (Py.lit 209 1) = false /\
  percent_spec (Py.lit 11577555 3) (Py.Int 55395) = ok (Py.lit 209 1).
Proof.
  intros Hpop Hedu.
  assert (Htotal : population_total [county] = ok (Py.Int 55395)).
  { unfold population_total, population_total_loop, Py.subscript. rewrite Hpop.
    reflexivity. }
  assert (Hsub : population_by_education [county] "Bachelor's Degree or Higher" =
                 ok (Py.lit 11577555 3)).
  { unfold population_by_education. simpl. unfold Py.subscript.
    rewrite Hedu, Hpop. vm_compute. reflexivity. }
  split; [exact Htotal|]. split; [exact Hsub|]. split; [|split].
  - unfold percent_by_education. rewrite Hsub, Htotal. vm_compute. reflexivity.
  - vm_compute. reflexivity.
  - vm_compute. reflexivity.
Qed.

Lemma single_county_scenario_witness :
  demographics Sample.autauga !! "2014 Population" = Some (Py.Int 55395) /\
  education Sample.autauga !! "Bachelor's Degree or Higher" = Some (Py.lit 209 1) /\
  population_by_education [Sample.autauga] "Bachelor's Degree or Higher" =
    ok (Py.lit 11577555 3) /\
  percent_by_education [Sample.autauga] "Bachelor's Degree or Higher" =
    ok (Py.Float (Float64.succ (Float64.decimal 209 1))).
Proof.
  split; [reflexivity|]. split; [reflexivity|].
  destruct (single_county_scenario Sample.autauga eq_refl eq_refl)
    as (_ & Hsub & Hpercent & _).
  split; [exact Hsub | exact Hpercent].
Defined.

(** ** Comprehensions *)

Section Comprehension.

Context {A : Type}.
Implicit Types (f g h : A -> bool) (l : list A).

Lemma elem_of_comprehension f l x : x ∈ List.filter f l <-> x ∈ l /\ f x = true.
Proof. rewrite !list_elem_of_In. apply filter_In. Qed.

Lemma comprehension_sublist f l : List.filter f l `sublist_of` l.
Proof.
  induction l as [|x l IH]; simpl; [constructor|].
  destruct (f x); [apply sublist_skip | apply sublist_cons]; exact IH.
Qed.

Lemma three_way_split f g h l :
  (forall x, x ∈ l -> one_of_three (f x) (g x) (h x)) ->
  List.filter f l ++ List.filter g l ++ List.filter h l ≡ₚ l.
Proof.
  induction l as [|x l IH]; intros H; simpl; [reflexivity|].
  assert (Hx := H x (list_elem_of_here x l)).
  assert (IH' := IH (fun y Hy => H y (list_elem_of_further y x l Hy))).
  destruct (f x), (g x), (h x); simpl in Hx; try contradiction.
  - simpl. constructor. exact IH'.
  - simpl. symmetry. apply Permutation_cons_app. symmetry. exact IH'.
  - rewrite app_assoc. symmetry. apply Permutation_cons_app.
    rewrite <- app_assoc. symmetry. exact IH'.
Qed.

End Comprehension.

(** ** Comparison of numbers *)

Lemma compare_int_swap z b : Py.compare (Py.Int z) b = CompOpp <$> Py.compare b (Py.Int z).
Proof.
  destruct b as [y|x]; simpl.
  - rewrite Z.compare_antisym. reflexivity.
  - destruct (Float64.compare_int z x) as [[]|]; reflexivity.
Qed.

Lemma compare_defined a b :
  Py.is_nan a = false -> Py.is_nan b = false -> is_Some (Py.compare a b).
Proof.
  destruct a as [x|x], b as [y|y]; simpl; intros Ha Hb; eauto.
  - destruct y; simpl in *; try discriminate; eauto.
  - destruct x; simpl in *; try discriminate; eauto.
  - destruct x, y; simpl in *; try discriminate; eauto.
Qed.

Lemma no_nan_one_of_three a b :
  Py.is_nan a = false -> Py.is_nan b = false ->
  one_of_three (Py.gt a b) (Py.eq a b) (Py.lt a b).
Proof.
  intros Ha Hb. destruct (compare_defined a b Ha Hb) as [c Hc].
  unfold Py.gt, Py.eq, Py.lt. rewrite Hc. destruct c; exact I.
Qed.

Lemma gt_lt_exclusive a b : Py.gt a b = true -> Py.lt a b = true -> False.
Proof. unfold Py.gt, Py.lt. destruct (Py.compare a b) as [[]|]; discriminate. Qed.

Lemma eq_neither a b : Py.eq a b = true -> Py.gt a b = false /\ Py.lt a b = false.
Proof. unfold Py.eq, Py.gt, Py.lt. destruct (Py.compare a b) as [[]|]; auto; discriminate. Qed.

Lemma zero_against_zero t :
  Py.eq t (Py.Int 0) = true ->
  Py.gt (Py.Int 0) t = false /\ Py.lt (Py.Int 0) t = false.
Proof.
  unfold Py.eq, Py.gt, Py.lt. rewrite (compare_int_swap 0 t).
  destruct (Py.compare t (Py.Int 0)) as [[]|]; simpl; auto; discriminate.
Qed.

Lemma zero_against_negative t :
  Py.lt t (Py.Int 0) = true -> Py.gt (Py.Int 0) t = true.
Proof.
  unfold Py.gt, Py.lt. rewrite (compare_int_swap 0 t).
  destruct (Py.compare t (Py.Int 0)) as [[]|]; simpl; auto; discriminate.
Qed.

Lemma get_is_attribute_value d k : Py.get d k (Py.Int 0) = attribute_value d k.
Proof. reflexivity. Qed.

Lemma attribute_value_missing d k : d !! k = None -> attribute_value d k = Py.Int 0.
Proof. intros H. unfold attribute_value. rewrite H. reflexivity. Qed.

(** ** Filter by state *)

(** C5: [filter_by_state] keeps exactly the counties whose state is the given
    string, character for character, in their order: membership in the result
    is membership in the input together with equality of the state, an
    excluded county has another state, the result is a subsequence of the
    input, it is empty when no state matches, whatever the string, and the
    function is determined county by county. *)
Theorem filter_by_state_exact (counties : list CountyDemographics) (state_code : string) :
  (forall c, c ∈ filter_by_state counties state_code <->
             c ∈ counties /\ state c = state_code) /\
  (forall c, c ∈ counties -> c ∉ filter_by_state counties state_code ->
             state c <> state_code) /\
  filter_by_state counties state_code `sublist_of` counties /\
  ((forall c, c ∈ counties -> state c <> state_code) ->
   filter_by_state counties state_code = []) /\
  (forall before after,
      counties = before ++ after ->
      filter_by_state counties state_code =
        filter_by_state before state_code ++ filter_by_state after state_code) /\
  (forall c, filter_by_state [c] state_code =
             if decide (state c = state_code) then [c] else []).
Proof.
  assert (Hin : forall c, c ∈ filter_by_state counties state_code <->
                          c ∈ counties /\ state c = state_code).
  { intros c. unfold filter_by_state. rewrite elem_of_comprehension.
    rewrite String.eqb_eq. reflexivity. }
  split; [exact Hin|]. split; [|split; [|split; [|split]]].
  - intros c Hc Hout Heq. apply Hout, Hin. auto.
  - apply comprehension_sublist.
  - intros Hnone. destruct (filter_by_state counties state_code) as [|c l] eqn:E;
      [reflexivity|].
    destruct (proj1 (Hin c) (list_elem_of_here c l)) as [Hc Heq].
    destruct (Hnone c Hc Heq).
  - intros before after ->. unfold filter_by_state. apply List.filter_app.
  - intros c. unfold filter_by_state. simpl.
    destruct (decide (state c = state_code)) as [Heq|Hne].
    + apply String.eqb_eq in Heq. rewrite Heq. reflexivity.
    + apply String.eqb_neq in Hne. rewrite Hne. reflexivity.
Qed.

Lemma filter_by_state_exact_witness :
  filter_by_state Sample.reduced_data "CA" = [Sample.san_luis_obispo; Sample.yolo] /\
  (forall c, c ∈ Sample.reduced_data -> state c <> "ca"%string) /\
  filter_by_state Sample.reduced_data "ca" = [] /\
  filter_by_state Sample.reduced_data "California" = [].
Proof.
  assert (H : forall c, c ∈ Sample.reduced_data -> state c <> "ca"%string).
  { intros c Hc. repeat (apply elem_of_cons in Hc as [->|Hc]; [discriminate|]).
    apply elem_of_nil in Hc. destruct Hc. }
  split; [reflexivity|]. split; [exact H|]. split; [|reflexivity].
  exact (proj1 (proj2 (proj2 (proj2 (filter_by_state_exact Sample.reduced_data "ca")))) H).
Defined.

(** ** Threshold filters *)

Lemma threshold_filter_spec (test : Py.num -> Py.num -> bool)
    (mapping : CountyDemographics -> Py.dict) key threshold counties c :
  c ∈ List.filter (fun county => test (Py.get (mapping county) key (Py.Int 0)) threshold)
        counties <->
  c ∈ counties /\ test (attribute_value (mapping c) key) threshold = true.
Proof. rewrite elem_of_comprehension. reflexivity. Qed.

(** The six source filters are the two comprehensions, at their mapping and
    key. *)
Lemma greater_than_eq a counties threshold :
  greater_than a counties threshold =
  List.filter (fun county =>
    Py.gt (Py.get (mapping_of a county) (key_of a) (Py.Int 0)) threshold) counties.
Proof. destruct a; reflexivity. Qed.

Lemma less_than_eq a counties threshold :
  less_than a counties threshold =
  List.filter (fun county =>
    Py.lt (Py.get (mapping_of a county) (key_of a) (Py.Int 0)) threshold) counties.
Proof. destruct a; reflexivity. Qed.

Lemma elem_of_greater_than a counties threshold c :
  c ∈ greater_than a counties threshold <->
  c ∈ counties /\
  Py.gt (attribute_value (mapping_of a c) (key_of a)) threshold = true.
Proof. rewrite greater_than_eq. apply threshold_filter_spec. Qed.

Lemma elem_of_less_than a counties threshold c :
  c ∈ less_than a counties threshold <->
  c ∈ counties /\
  Py.lt (attribute_value (mapping_of a c) (key_of a)) threshold = true.
Proof. rewrite less_than_eq. apply threshold_filter_spec. Qed.

(** C4: each threshold filter keeps, in order, exactly the counties whose
    value for the key, taken as [0] when the key is absent, is strictly
    greater (respectively strictly less) than the threshold; a value equal to
    the threshold passes neither test; and a county without an entry
    ["Hispanic or Latino"] is in [ethnicity_less_than] for the threshold
    [1.0] and not in [ethnicity_greater_than]. *)
Theorem threshold_filters_exact (a : attribute) (counties : list CountyDemographics)
    (threshold : Py.num) :
  (forall c, c ∈ greater_than a counties threshold <->
     c ∈ counties /\
     Py.gt (attribute_value (mapping_of a c) (key_of a)) threshold = true) /\
  (forall c, c ∈ less_than a counties threshold <->
     c ∈ counties /\
     Py.lt (attribute_value (mapping_of a c) (key_of a)) threshold = true) /\
  greater_than a counties threshold `sublist_of` counties /\
  less_than a counties threshold `sublist_of` counties /\
  (forall v, Py.eq v threshold = true ->
     Py.gt v threshold = false /\ Py.lt v threshold = false) /\
  (forall c, c ∈ counties -> ethnicity c !! "Hispanic or Latino" = None ->
     c ∈ ethnicity_less_than counties "Hispanic or Latino" (Py.lit 10 1) /\
     c ∉ ethnicity_greater_than counties "Hispanic or Latino" (Py.lit 10 1)).
Proof.
  split; [apply elem_of_greater_than|]. split; [apply elem_of_less_than|].
  split; [rewrite greater_than_eq; apply comprehension_sublist|].
  split; [rewrite less_than_eq; apply comprehension_sublist|].
  split; [intros v; apply eq_neither|].
  intros c Hc Hkey.
  pose proof (elem_of_less_than (Ethnicity "Hispanic or Latino")
                counties (Py.lit 10 1) c) as Hlt.
  pose proof (elem_of_greater_than (Ethnicity "Hispanic or Latino")
                counties (Py.lit 10 1) c) as Hgt.
  cbn [less_than greater_than mapping_of key_of] in Hlt, Hgt.
  rewrite Hlt, Hgt, (attribute_value_missing _ _ Hkey).
  split; [split; [exact Hc | reflexivity] | intros [_ H]; discriminate H].
Qed.

Lemma threshold_filters_exact_witness :
  Sample.unrecorded ∈ [Sample.autauga; Sample.unrecorded] /\
  ethnicity Sample.unrecorded !! "Hispanic or Latino" = None /\
  Sample.unrecorded ∈
    ethnicity_less_than [Sample.autauga; Sample.unrecorded] "Hispanic or Latino"
      (Py.lit 10 1) /\
  Sample.unrecorded ∉
    ethnicity_greater_than [Sample.autauga; Sample.unrecorded] "Hispanic or Latino"
      (Py.lit 10 1).
Proof.
  assert (H : Sample.unrecorded ∈ [Sample.autauga; Sample.unrecorded])
    by (apply list_elem_of_further, list_elem_of_here).
  split; [exact H|]. split; [reflexivity|].
  exact (proj2 (proj2 (proj2 (proj2 (proj2
           (threshold_filters_exact (Ethnicity "Hispanic or Latino")
              [Sample.autauga; Sample.unrecorded] (Py.lit 10 1))))))
           Sample.unrecorded H eq_refl).
Defined.

(** C9: a county of the list whose mapping lacks the key is in neither the
    greater-than nor the less-than filter when the threshold equals [0], and
    is in the greater-than filter when the threshold is strictly negative;
    this for the education, the ethnicity and the poverty filters. *)
Theorem missing_key_against_zero (a : attribute) (counties : list CountyDemographics)
    (threshold : Py.num) (c : CountyDemographics) :
  c ∈ counties ->
  mapping_of a c !! key_of a = None ->
  (Py.eq threshold (Py.Int 0) = true ->
     (c ∉ greater_than a counties threshold) /\
     (c ∉ less_than a counties threshold)) /\
  (Py.lt threshold (Py.Int 0) = true ->
     c ∈ greater_than a counties threshold).
Proof.
  intros Hc Hkey.
  rewrite elem_of_greater_than, elem_of_less_than,
    (attribute_value_missing _ _ Hkey).
  split.
  - intros Hzero. destruct (zero_against_zero threshold Hzero) as [Hgt Hlt].
    split; intros [_ H]; congruence.
  - intros Hneg. split; [exact Hc | apply zero_against_negative, Hneg].
Qed.

Lemma missing_key_against_zero_witness :
  Sample.unrecorded ∈ [Sample.autauga; Sample.unrecorded] /\
  education Sample.unrecorded !! "Bachelor's Degree or Higher" = None /\
  Py.eq (Py.lit 0 1) (Py.Int 0) = true /\
  Py.lt (Py.lit (-5) 1) (Py.Int 0) = true /\
  (Sample.unrecorded ∉
     education_greater_than [Sample.autauga; Sample.unrecorded]
       "Bachelor's Degree or Higher" (Py.lit 0 1)) /\
  (Sample.unrecorded ∉
     education_less_than [Sample.autauga; Sample.unrecorded]
       "Bachelor's Degree or Higher" (Py.lit 0 1)) /\
  Sample.unrecorded ∈
    education_greater_than [Sample.autauga; Sample.unrecorded]
      "Bachelor's Degree or Higher" (Py.lit (-5) 1).
Proof.
  assert (H : Sample.unrecorded ∈ [Sample.autauga; Sample.unrecorded])
    by (apply list_elem_of_further, list_elem_of_here).
  split; [exact H|]. split; [reflexivity|]. split; [reflexivity|].
  split; [reflexivity|].
  destruct (proj1 (missing_key_against_zero (Education "Bachelor's Degree or Higher")
                     [Sample.autauga; Sample.unrecorded] (Py.lit 0 1)
                     Sample.unrecorded H eq_refl) eq_refl) as [Hgt Hlt].
  split; [exact Hgt|]. split; [exact Hlt|].
  exact (proj2 (missing_key_against_zero (Education "Bachelor's Degree or Higher")
                  [Sample.autauga; Sample.unrecorded] (Py.lit (-5) 1)
                  Sample.unrecorded H eq_refl) eq_refl).
Defined.

(** ** The three-way partition *)

(** C6, as stated, fails when the threshold is NaN: the sample record is then
    in none of the three parts. *)
Lemma nan_threshold_in_no_part :
  Sample.autauga ∈ [Sample.autauga] /\
  (Sample.autauga ∉ education_greater_than [Sample.autauga]
     "Bachelor's Degree or Higher" (Py.Float Float64.nan)) /\
  (Sample.autauga ∉ education_less_than [Sample.autauga]
     "Bachelor's Degree or Higher" (Py.Float Float64.nan)) /\
  (Sample.autauga ∉ education_equal_to [Sample.autauga]
     "Bachelor's Degree or Higher" (Py.Float Float64.nan)).
Proof.
  assert (Hgt : education_greater_than [Sample.autauga]
            "Bachelor's Degree or Higher" (Py.Float Float64.nan) = [])
    by (vm_compute; reflexivity).
  assert (Hlt : education_less_than [Sample.autauga]
            "Bachelor's Degree or Higher" (Py.Float Float64.nan) = [])
    by (vm_compute; reflexivity).
  assert (Heq : education_equal_to [Sample.autauga]
            "Bachelor's Degree or Higher" (Py.Float Float64.nan) = [])
    by (vm_compute; reflexivity).
  rewrite Hgt, Hlt, Heq.
  split; [apply list_elem_of_here|]. repeat split; apply not_elem_of_nil.
Qed.

(** C6, amended: the greater-than and the less-than filter never share a
    county; and when neither the threshold nor a value of the list for the
    key is NaN, the two filters and the counties whose value equals the
    threshold rebuild the list (up to order), each county of the list being
    in exactly one of the three parts. *)
Theorem education_three_way_partition (counties : list CountyDemographics)
    (key : string) (threshold : Py.num) :
  (forall c, c ∈ education_greater_than counties key threshold ->
             c ∈ education_less_than counties key threshold -> False) /\
  (Py.is_nan threshold = false ->
   (forall c, c ∈ counties -> Py.is_nan (attribute_value (education c) key) = false) ->
   education_greater_than counties key threshold ++
     education_equal_to counties key threshold ++
     education_less_than counties key threshold ≡ₚ counties /\
   (forall c, c ∈ counties ->
      (c ∈ education_greater_than counties key threshold /\
       (c ∉ education_equal_to counties key threshold) /\
       (c ∉ education_less_than counties key threshold)) \/
      ((c ∉ education_greater_than counties key threshold) /\
       c ∈ education_equal_to counties key threshold /\
       (c ∉ education_less_than counties key threshold)) \/
      ((c ∉ education_greater_than counties key threshold) /\
       (c ∉ education_equal_to counties key threshold) /\
       c ∈ education_less_than counties key threshold))).
Proof.
  unfold education_greater_than, education_less_than, education_equal_to.
  split.
  - intros c. rewrite !threshold_filter_spec. intros [_ Hgt] [_ Hlt].
    exact (gt_lt_exclusive _ _ Hgt Hlt).
  - intros Ht Hvalues. split.
    + apply three_way_split. intros c Hc. rewrite get_is_attribute_value.
      apply no_nan_one_of_three; [apply Hvalues, Hc | exact Ht].
    + intros c Hc. rewrite !threshold_filter_spec, !elem_of_comprehension.
      pose proof (no_nan_one_of_three _ _ (Hvalues c Hc) Ht) as H.
      destruct (Py.gt _ _), (Py.eq _ _), (Py.lt _ _); simpl in H;
        try contradiction.
      * left. repeat split; auto; intros [_ ?]; discriminate.
      * right; left. repeat split; auto; intros [_ ?]; discriminate.
      * right; right. repeat split; auto; intros [_ ?]; discriminate.
Qed.

Lemma education_three_way_partition_witness :
  Py.is_nan (Py.lit 209 1) = false /\
  (forall c, c ∈ Sample.reduced_data ->
     Py.is_nan (attribute_value (education c) "Bachelor's Degree or Higher") = false) /\
  education_greater_than Sample.reduced_data "Bachelor's Degree or Higher" (Py.lit 209 1) =
    [Sample.san_luis_obispo; Sample.yolo] /\
  education_equal_to Sample.reduced_data "Bachelor's Degree or Higher" (Py.lit 209 1) =
    [Sample.autauga] /\
  education_less_than Sample.reduced_data "Bachelor's Degree or Higher" (Py.lit 209 1) =
    [Sample.crawford; Sample.butte; Sample.pettis; Sample.weston] /\
  education_greater_than Sample.reduced_data "Bachelor's Degree or Higher" (Py.lit 209 1) ++
    education_equal_to Sample.reduced_data "Bachelor's Degree or Higher" (Py.lit 209 1) ++
    education_less_than Sample.reduced_data "Bachelor's Degree or Higher" (Py.lit 209 1)
  ≡ₚ Sample.reduced_data.
Proof.
  assert (H : forall c, c ∈ Sample.reduced_data ->
     Py.is_nan (attribute_value (education c) "Bachelor's Degree or Higher") = false).
  { intros c Hc. repeat (apply elem_of_cons in Hc as [->|Hc]; [reflexivity|]).
    apply elem_of_nil in Hc. destruct Hc. }
  split; [reflexivity|]. split; [exact H|].
  split; [reflexivity|]. split; [reflexivity|]. split; [reflexivity|].
  exact (proj1 (proj2 (education_three_way_partition Sample.reduced_data
                         "Bachelor's Degree or Higher" (Py.lit 209 1)) eq_refl H)).
Defined.

(** ** Total population of a state *)

Lemma filter_by_state_populations counties populations state_code :
  populations_are counties populations ->
  Forall (fun p => 0 <= p) populations ->
  exists kept,
    populations_are (filter_by_state counties state_code) kept /\
    Zsum kept <= Zsum populations.
Proof.
  intros H. induction H as [|county p counties populations Hp _ IH]; intros Hpos.
  - exists []. split; [constructor | reflexivity].
  - apply Forall_cons in Hpos as [Hp0 Hpos].
    destruct (IH Hpos) as (kept & Hkept & Hle).
    unfold filter_by_state in *. simpl.
    destruct (String.eqb (state county) state_code).
    + exists (p :: kept). split; [constructor; assumption|].
      unfold Zsum in *. simpl. lia.
    + exists kept. split; [assumption|]. unfold Zsum in *. simpl. lia.
Qed.

(** C7, as stated, fails on a record with a negative population: filtering
    it out raises the total from [-100] to [0]. *)
Lemma filtered_total_can_exceed :
  population_total (filter_by_state [Sample.indebted] "CA") = ok (Py.Int 0) /\
  population_total [Sample.indebted] = ok (Py.Int (-100)) /\
  Py.gt (Py.Int 0) (Py.Int (-100)) = true.
Proof. repeat split. Qed.

(** C7, amended: when the 2014 populations of the counties are integers none
    of which is negative, the total population of the counties of a state is
    an integer not greater than the total population of all the counties. *)
Theorem filtered_total_bounded (counties : list CountyDemographics)
    (state_code : string) (populations : list Z) :
  populations_are counties populations ->
  Forall (fun p => 0 <= p) populations ->
  exists part whole,
    population_total (filter_by_state counties state_code) = ok (Py.Int part) /\
    population_total counties = ok (Py.Int whole) /\
    part <= whole.
Proof.
  intros H Hpos.
  destruct (filter_by_state_populations _ _ state_code H Hpos) as (kept & Hkept & Hle).
  exists (Zsum kept), (Zsum populations).
  split; [apply population_total_int, Hkept|].
  split; [apply population_total_int, H | exact Hle].
Qed.

Lemma filtered_total_bounded_witness :
  populations_are Sample.reduced_data [55395; 61697; 279083; 207590; 2622; 42225; 7201] /\
  Forall (fun p => 0 <= p) [55395; 61697; 279083; 207590; 2622; 42225; 7201] /\
  exists part whole,
    population_total (filter_by_state Sample.reduced_data "CA") = ok (Py.Int part) /\
    population_total Sample.reduced_data = ok (Py.Int whole) /\
    part <= whole.
Proof.
  assert (H : populations_are Sample.reduced_data [55395; 61697; 279083; 207590; 2622; 42225; 7201])
    by (repeat constructor).
  assert (Hpos : Forall (fun p => 0 <= p) [55395; 61697; 279083; 207590; 2622; 42225; 7201])
    by (repeat constructor; lia).
  split; [exact H|]. split; [exact Hpos|].
  exact (filtered_total_bounded Sample.reduced_data "CA" _ H Hpos).
Defined.

(** * Loading *)

(** ** [convert_county] *)

Lemma convert_county_object county :
  snd (convert_county county) = as_object (fst (convert_county county)).
Proof.
  unfold convert_county.
  destruct (Raw.Income county !! "Median Houseold Income"); reflexivity.
Qed.

Lemma convert_county_income county key :
  income (snd (convert_county county)) !! key =
    match Raw.Income county !! "Median Houseold Income" with
    | Some median =>
        if decide (key = "Median Houseold Income") then None
        else if decide (key = "Median Household Income") then Some median
        else Raw.Income county !! key
    | None => Raw.Income county !! key
    end.
Proof.
  unfold convert_county.
  destruct (Raw.Income county !! "Median Houseold Income") as [median|] eqn:E;
    [|reflexivity].
  cbn [snd income Raw.Income Raw.set_Income].
  destruct (decide (key = "Median Houseold Income")) as [->|Hk].
  - apply lookup_delete_eq.
  - rewrite lookup_delete_ne by congruence.
    destruct (decide (key = "Median Household Income")) as [->|Hk'].
    + apply lookup_insert_eq.
    + apply lookup_insert_ne. congruence.
Qed.

Lemma convert_county_no_misspelling county :
  income (snd (convert_county county)) !! "Median Houseold Income" = None.
Proof.
  rewrite convert_county_income.
  destruct (Raw.Income county !! "Median Houseold Income"); reflexivity.
Qed.

Lemma convert_county_other_income county key :
  key <> "Median Houseold Income"%string ->
  key <> "Median Household Income"%string ->
  income (snd (convert_county county)) !! key = Raw.Income county !! key.
Proof.
  intros Hk Hk'. rewrite convert_county_income.
  destruct (Raw.Income county !! "Median Houseold Income"); [|reflexivity].
  rewrite !decide_False by assumption. reflexivity.
Qed.

Lemma convert_county_other_fields county :
  age (snd (convert_county county)) = Raw.Age county /\
  name (snd (convert_county county)) = Raw.County county /\
  education (snd (convert_county county)) = Raw.Education county /\
  ethnicity (snd (convert_county county)) = Raw.Ethnicities county /\
  demographics (snd (convert_county county)) = Raw.Population county /\
  state (snd (convert_county county)) = Raw.State county.
Proof.
  unfold convert_county.
  destruct (Raw.Income county !! "Median Houseold Income"); repeat split.
Qed.

(** X1: [convert_county] moves the entry under the misspelt key
    ["Median Houseold Income"] to ["Median Household Income"]: the object's
    income mapping never has the misspelt key; when the argument had it, its
    value is now under the right key, replacing whatever stood there; every
    other income entry, and every other attribute, is the argument's. *)
Theorem convert_county_moves_the_misspelt_entry (county : Raw.county) :
  income (snd (convert_county county)) !! "Median Houseold Income" = None /\
  (forall median,
      Raw.Income county !! "Median Houseold Income" = Some median ->
      income (snd (convert_county county)) !! "Median Household Income" = Some median) /\
  (Raw.Income county !! "Median Houseold Income" = None ->
   income (snd (convert_county county)) = Raw.Income county) /\
  (forall key,
      key <> "Median Houseold Income"%string ->
      key <> "Median Household Income"%string ->
      income (snd (convert_county county)) !! key = Raw.Income county !! key) /\
  age (snd (convert_county county)) = Raw.Age county /\
  name (snd (convert_county county)) = Raw.County county /\
  education (snd (convert_county county)) = Raw.Education county /\
  ethnicity (snd (convert_county county)) = Raw.Ethnicities county /\
  demographics (snd (convert_county county)) = Raw.Population county /\
  state (snd (convert_county county)) = Raw.State county.
Proof.
  split; [apply convert_county_no_misspelling|].
  split.
  { intros median H. rewrite convert_county_income, H. reflexivity. }
  split.
  { intros H. unfold convert_county. rewrite H. reflexivity. }
  split; [apply convert_county_other_income|].
  apply convert_county_other_fields.
Qed.

(** X2: the call leaves its argument with the object's income mapping and
    nothing else changed, and a second call on the same dictionary finds
    nothing to move: it returns an equal object and leaves the dictionary as
    it is. *)
Theorem convert_county_again (county : Raw.county) :
  Raw.Income (fst (convert_county county)) = income (snd (convert_county county)) /\
  Raw.set_Income (Raw.Income county) (fst (convert_county county)) = county /\
  convert_county (fst (convert_county county)) = convert_county county.
Proof.
  split; [|split].
  - unfold convert_county.
    destruct (Raw.Income county !! "Median Houseold Income"); reflexivity.
  - unfold convert_county.
    destruct (Raw.Income county !! "Median Houseold Income"); destruct county; reflexivity.
  - pose proof (convert_county_no_misspelling county) as Hnone.
    rewrite convert_county_object in Hnone.
    rewrite (surjective_pairing (convert_county county)) at 2.
    rewrite convert_county_object.
    unfold convert_county at 1.
    cbn [as_object income] in Hnone. rewrite Hnone. reflexivity.
Qed.

Lemma convert_county_moves_the_misspelt_entry_witness :
  Raw.Income RawSample.autauga_both !! "Median Houseold Income" = Some (Py.Int 53682) /\
  Raw.Income RawSample.autauga_both !! "Median Household Income" = Some (Py.Int 1) /\
  income (snd (convert_county RawSample.autauga_both)) !! "Median Household Income" =
    Some (Py.Int 53682) /\
  income (snd (convert_county RawSample.autauga_both)) !! "Persons Below Poverty Level" =
    Raw.Income RawSample.autauga_both !! "Persons Below Poverty Level".
Proof.
  split; [reflexivity|]. split; [reflexivity|]. split.
  - exact (proj1 (proj2 (convert_county_moves_the_misspelt_entry RawSample.autauga_both))
             (Py.Int 53682) eq_refl).
  - apply (proj1 (proj2 (proj2 (proj2
             (convert_county_moves_the_misspelt_entry RawSample.autauga_both)))));
      discriminate.
Defined.

(** ** [get_data] *)

Section GetDataFacts.

Variable get_report : nat -> list Raw.county.

Lemma get_data_loaded st county counties :
  _converted st = Some (county :: counties) ->
  get_data get_report st = (county :: counties, st).
Proof. intros H. unfold get_data. rewrite H. reflexivity. Qed.

Lemma get_data_unloaded st :
  _converted st = None \/ _converted st = Some [] ->
  get_data get_report st =
    (map (fun county => snd (convert_county county)) (get_report (fetched st)),
     {| _converted :=
          Some (map (fun county => snd (convert_county county)) (get_report (fetched st)));
        fetched := S (fetched st) |}).
Proof. intros [H|H]; unfold get_data; rewrite H; reflexivity. Qed.

Lemma get_data_keeps_result st :
  _converted (snd (get_data get_report st)) = Some (fst (get_data get_report st)).
Proof.
  unfold get_data. destruct (_converted st) as [[|county counties]|] eqn:E;
    simpl; try reflexivity. exact E.
Qed.

Lemma get_data_times_stable n st county counties :
  _converted st = Some (county :: counties) ->
  get_data_times get_report n st = (replicate n (county :: counties), st).
Proof.
  intros H. induction n as [|n IH]; simpl; [reflexivity|].
  rewrite (get_data_loaded _ _ _ H), IH. reflexivity.
Qed.

Lemma converted_well_kept report :
  Forall (fun c => income c !! "Median Houseold Income" = None)
    (map (fun county => snd (convert_county county)) report).
Proof.
  apply Forall_forall. intros c Hc. apply list_elem_of_fmap in Hc as (raw & -> & _).
  apply convert_county_no_misspelling.
Qed.

Lemma get_data_well_kept st :
  well_kept st ->
  well_kept (snd (get_data get_report st)) /\
  Forall (fun c => income c !! "Median Houseold Income" = None)
    (fst (get_data get_report st)).
Proof.
  intros Hst. unfold get_data.
  destruct (_converted st) as [[|county counties]|] eqn:E; simpl.
  - split; [|apply converted_well_kept].
    intros l [= <-]. apply converted_well_kept.
  - split; [exact Hst | apply Hst, E].
  - split; [|apply converted_well_kept].
    intros l [= <-]. apply converted_well_kept.
Qed.

Lemma get_data_fetches_at_most_once st :
  (fetched st <= fetched (snd (get_data get_report st)) <= S (fetched st))%nat.
Proof.
  unfold get_data. destruct (_converted st) as [[|county counties]|]; simpl; lia.
Qed.

Lemma get_data_times_well_kept n : forall st,
  well_kept st ->
  well_kept (snd (get_data_times get_report n st)) /\
  Forall (Forall (fun c => income c !! "Median Houseold Income" = None))
    (fst (get_data_times get_report n st)) /\
  (fetched st <= fetched (snd (get_data_times get_report n st)) <= fetched st + n)%nat.
Proof.
  induction n as [|n IH]; intros st Hst; simpl.
  - split; [exact Hst|]. split; [constructor | lia].
  - destruct (get_data_well_kept st Hst) as [Hst' Hres].
    pose proof (get_data_fetches_at_most_once st) as Hf.
    destruct (get_data get_report st) as [counties st'] eqn:E. simpl in *.
    destruct (IH st' Hst') as (Hkept & Hall & Hn).
    destruct (get_data_times get_report n st') as [rest st''] eqn:E'. simpl in *.
    split; [exact Hkept|]. split; [constructor; assumption | lia].
Qed.

End GetDataFacts.

(** X3: once a call of [get_data] has returned a non-empty list, every later
    call returns that list and leaves the state as it is: the report is not
    fetched again. *)
Theorem get_data_loads_once (get_report : nat -> list Raw.county) (st : loader)
    (county : CountyDemographics) (counties : list CountyDemographics) (n : nat) :
  fst (get_data get_report st) = county :: counties ->
  get_data_times get_report n (snd (get_data get_report st)) =
    (replicate n (county :: counties), snd (get_data get_report st)).
Proof.
  intros H. apply get_data_times_stable.
  rewrite get_data_keeps_result, H. reflexivity.
Qed.

Lemma get_data_loads_once_witness :
  fst (get_data (fun _ => [RawSample.autauga_misspelt]) imported) =
    [snd (convert_county RawSample.autauga_misspelt)] /\
  get_data_times (fun _ => [RawSample.autauga_misspelt]) 3
      (snd (get_data (fun _ => [RawSample.autauga_misspelt]) imported)) =
    (replicate 3 [snd (convert_county RawSample.autauga_misspelt)],
     snd (get_data (fun _ => [RawSample.autauga_misspelt]) imported)).
Proof.
  split; [reflexivity|].
  exact (get_data_loads_once (fun _ => [RawSample.autauga_misspelt]) imported
           _ [] 3 eq_refl).
Defined.

(** X4: an empty report is not kept: when nothing is loaded, or an empty
    list is, and the report comes back empty, [get_data] returns the empty
    list, and the next call fetches the report again. *)
Theorem get_data_reloads_after_empty (get_report : nat -> list Raw.county) (st : loader) :
  _converted st = None \/ _converted st = Some [] ->
  get_report (fetched st) = [] ->
  get_data get_report st =
    ([], {| _converted := Some []; fetched := S (fetched st) |}) /\
  get_data get_report {| _converted := Some []; fetched := S (fetched st) |} =
    (map (fun county => snd (convert_county county)) (get_report (S (fetched st))),
     {| _converted :=
          Some (map (fun county => snd (convert_county county))
                  (get_report (S (fetched st))));
        fetched := S (S (fetched st)) |}).
Proof.
  intros Hst Hempty. split.
  - rewrite (get_data_unloaded get_report st Hst), Hempty. reflexivity.
  - apply (get_data_unloaded get_report
             {| _converted := Some []; fetched := S (fetched st) |}).
    right. reflexivity.
Qed.

Lemma get_data_reloads_after_empty_witness :
  get_data RawSample.late_report imported =
    ([], {| _converted := Some []; fetched := 1 |}) /\
  fst (get_data RawSample.late_report {| _converted := Some []; fetched := 1 |}) =
    [snd (convert_county RawSample.autauga_misspelt)].
Proof.
  destruct (get_data_reloads_after_empty RawSample.late_report imported
              (or_introl eq_refl) eq_refl) as [H1 H2].
  split; [exact H1|]. exact (f_equal fst H2).
Defined.

(** X5: from the module as imported, whatever the reports are and however
    many calls are made, no county [get_data] returns has the misspelt key
    ["Median Houseold Income"], and [n] calls fetch the report at most [n]
    times. *)
Theorem get_data_never_returns_the_misspelling (get_report : nat -> list Raw.county)
    (n : nat) :
  Forall (Forall (fun c => income c !! "Median Houseold Income" = None))
    (fst (get_data_times get_report n imported)) /\
  (fetched (snd (get_data_times get_report n imported)) <= n)%nat.
Proof.
  assert (H : well_kept imported) by (intros l [=]).
  destruct (get_data_times_well_kept get_report n imported H) as (_ & Hall & Hn).
  split; [exact Hall | exact (proj2 Hn)].
Qed.

(** ** Loading and the statistics *)

Lemma population_total_loop_same a total cs ds :
  Forall2 (same_statistics a) cs ds ->
  population_total_loop total cs = population_total_loop total ds.
Proof.
  intros H. revert total.
  induction H as [|c d cs ds (_ & Hpop & _) _ IH]; intros total; simpl; [reflexivity|].
  rewrite Hpop. destruct (Py.subscript _ _); simpl; [reflexivity|].
  destruct (Py.add _ _); simpl; [reflexivity|]. apply IH.
Qed.

Lemma sub_population_loop_same a total cs ds :
  Forall2 (same_statistics a) cs ds ->
  sub_population_loop (mapping_of a) (key_of a) total cs =
  sub_population_loop (mapping_of a) (key_of a) total ds.
Proof.
  intros H. revert total.
  induction H as [|c d cs ds (Hkey & Hpop & _) _ IH]; intros total; simpl; [reflexivity|].
  rewrite Hkey, Hpop. destruct (mapping_of a d !! key_of a); [|apply IH].
  repeat (step_bind; [reflexivity|]). apply IH.
Qed.

Lemma same_statistics_converted a raw :
  same_statistics a (snd (convert_county raw)) (as_object raw).
Proof.
  destruct (convert_county_other_fields raw) as (_ & _ & Hedu & Heth & Hpop & Hst).
  unfold same_statistics. rewrite Hpop, Hst. repeat split.
  destruct a as [k|k|]; cbn [mapping_of key_of].
  - rewrite Hedu. reflexivity.
  - rewrite Heth. reflexivity.
  - apply convert_county_other_income; discriminate.
Qed.

Lemma same_statistics_converted_all a raws :
  Forall2 (same_statistics a)
    (map (fun county => snd (convert_county county)) raws) (map as_object raws).
Proof.
  induction raws as [|raw raws IH]; simpl; constructor;
    [apply same_statistics_converted | exact IH].
Qed.

Lemma comprehension_map {A B : Type} (f : A -> B) (test : B -> bool) (l : list A) :
  List.filter test (map f l) = map f (List.filter (fun x => test (f x)) l).
Proof.
  induction l as [|x l IH]; simpl; [reflexivity|].
  destruct (test (f x)); simpl; rewrite IH; reflexivity.
Qed.

Lemma comprehension_ext {A : Type} (f g : A -> bool) (l : list A) :
  (forall x, f x = g x) -> List.filter f l = List.filter g l.
Proof.
  intros H. induction l as [|x l IH]; simpl; [reflexivity|].
  rewrite H, IH. reflexivity.
Qed.

(** X6: moving the misspelt income entry changes no statistic: over the
    converted counties, the total population, each sub-population and each
    percentage are what they are over the objects built from the unconverted
    dictionaries, and each filter keeps the conversions of the dictionaries
    whose unconverted object passes its test. *)
Theorem conversion_keeps_the_statistics (a : attribute) (raws : list Raw.county)
    (threshold : Py.num) (state_code : string) :
  let converted := map (fun county => snd (convert_county county)) raws in
  population_total converted = population_total (map as_object raws) /\
  sub_population a converted = sub_population a (map as_object raws) /\
  percent a converted = percent a (map as_object raws) /\
  greater_than a converted threshold =
    map (fun county => snd (convert_county county))
      (List.filter (fun raw =>
         Py.gt (attribute_value (mapping_of a (as_object raw)) (key_of a)) threshold)
         raws) /\
  less_than a converted threshold =
    map (fun county => snd (convert_county county))
      (List.filter (fun raw =>
         Py.lt (attribute_value (mapping_of a (as_object raw)) (key_of a)) threshold)
         raws) /\
  filter_by_state converted state_code =
    map (fun county => snd (convert_county county))
      (List.filter (fun raw => String.eqb (Raw.State raw) state_code) raws).
Proof.
  intros converted. subst converted.
  pose proof (same_statistics_converted_all a raws) as Hsame.
  assert (Htotal : population_total (map (fun county => snd (convert_county county)) raws) =
                   population_total (map as_object raws))
    by (apply (population_total_loop_same a), Hsame).
  assert (Hsub : sub_population a (map (fun county => snd (convert_county county)) raws) =
                 sub_population a (map as_object raws))
    by (rewrite !sub_population_eq; apply sub_population_loop_same, Hsame).
  assert (Hvalue : forall raw,
            attribute_value (mapping_of a (snd (convert_county raw))) (key_of a) =
            attribute_value (mapping_of a (as_object raw)) (key_of a)).
  { intros raw. unfold attribute_value.
    rewrite (proj1 (same_statistics_converted a raw)). reflexivity. }
  split; [exact Htotal|]. split; [exact Hsub|]. split.
  { rewrite !percent_eq, Htotal, Hsub. reflexivity. }
  split.
  { rewrite greater_than_eq, comprehension_map. f_equal.
    apply comprehension_ext. intros raw. rewrite !get_is_attribute_value, Hvalue.
    reflexivity. }
  split.
  { rewrite less_than_eq, comprehension_map. f_equal.
    apply comprehension_ext. intros raw. rewrite !get_is_attribute_value, Hvalue.
    reflexivity. }
  unfold filter_by_state. rewrite comprehension_map. f_equal.
  apply comprehension_ext. intros raw.
  rewrite (proj2 (proj2 (proj2 (proj2 (proj2 (convert_county_other_fields raw)))))).
  reflexivity.
Qed.

(** * More on the statistics *)

(** ** Exceptions *)

Lemma population_total_loop_app total cs ds :
  population_total_loop total (cs ++ ds) =
    (t ← population_total_loop total cs; population_total_loop t ds).
Proof.
  revert total. induction cs as [|county cs IH]; intros total; simpl; [reflexivity|].
  repeat (step_bind; [reflexivity|]). apply IH.
Qed.

Lemma population_total_missing before county after total :
  population_total before = ok total ->
  demographics county !! "2014 Population" = None ->
  population_total (before ++ county :: after) = raise (KeyError "2014 Population").
Proof.
  intros Hbefore Hkey. unfold population_total in *.
  rewrite population_total_loop_app, Hbefore. simpl.
  unfold Py.subscript. rewrite Hkey. reflexivity.
Qed.

(** X7: a county without the entry ["2014 Population"] makes
    [population_total] raise [KeyError] for that key, wherever the county
    stands after counties the total of which is computed, and every percent
    function, which starts with the total, raises the same. *)
Theorem missing_population_raises (before after : list CountyDemographics)
    (county : CountyDemographics) (total : Py.num) :
  population_total before = ok total ->
  demographics county !! "2014 Population" = None ->
  population_total (before ++ county :: after) = raise (KeyError "2014 Population") /\
  (forall a, percent a (before ++ county :: after) = raise (KeyError "2014 Population")).
Proof.
  intros Hbefore Hkey.
  pose proof (population_total_missing before county after total Hbefore Hkey) as H.
  split; [exact H|]. intros a. rewrite percent_eq, H. reflexivity.
Qed.

Lemma missing_population_raises_witness :
  population_total [Sample.autauga] = ok (Py.Int 55395) /\
  demographics Sample.unrecorded !! "2014 Population" = None /\
  population_total ([Sample.autauga] ++ Sample.unrecorded :: [Sample.crawford]) =
    raise (KeyError "2014 Population") /\
  percent_below_poverty_level ([Sample.autauga] ++ Sample.unrecorded :: [Sample.crawford]) =
    raise (KeyError "2014 Population").
Proof.
  destruct (missing_population_raises [Sample.autauga] [Sample.crawford]
              Sample.unrecorded (Py.Int 55395) eq_refl eq_refl) as [H1 H2].
  split; [reflexivity|]. split; [reflexivity|]. split; [exact H1 | exact (H2 Poverty)].
Defined.

(** X8: a sub-population function asks for the population of a county only
    when the county has the attribute's key.  At a county with no population
    entry it raises [KeyError] for ["2014 Population"] when the county has
    the key (and the counties before it gave a total), and it passes over
    the county, as if it were not in the list, when the county has not. *)
Theorem keyed_county_needs_population (a : attribute)
    (before after : list CountyDemographics) (county : CountyDemographics) :
  demographics county !! "2014 Population" = None ->
  (forall total percentage,
      sub_population a before = ok total ->
      mapping_of a county !! key_of a = Some percentage ->
      sub_population a (before ++ county :: after) =
        raise (KeyError "2014 Population")) /\
  (mapping_of a county !! key_of a = None ->
   sub_population a (before ++ county :: after) = sub_population a (before ++ after)).
Proof.
  intros Hpop. split.
  - intros total percentage Hbefore Hkey. rewrite sub_population_eq in *.
    rewrite sub_population_loop_app, Hbefore. simpl.
    rewrite Hkey. unfold Py.subscript. rewrite Hpop. reflexivity.
  - intros Hkey. rewrite !sub_population_eq.
    apply sub_population_loop_skip_app, Hkey.
Qed.

Lemma keyed_county_needs_population_witness :
  (demographics RawSample.unpopulated !! "2014 Population" = None /\
   population_by_education [Sample.autauga] "Bachelor's Degree or Higher" =
     ok (Py.lit 11577555 3) /\
   education RawSample.unpopulated !! "Bachelor's Degree or Higher" =
     Some (Py.lit 209 1) /\
   population_by_education ([Sample.autauga] ++ RawSample.unpopulated :: [Sample.crawford])
       "Bachelor's Degree or Higher" = raise (KeyError "2014 Population")) /\
  (demographics Sample.unrecorded !! "2014 Population" = None /\
   education Sample.unrecorded !! "Bachelor's Degree or Higher" = None /\
   population_by_education ([Sample.autauga] ++ Sample.unrecorded :: [Sample.crawford])
       "Bachelor's Degree or Higher" =
     population_by_education ([Sample.autauga] ++ [Sample.crawford])
       "Bachelor's Degree or Higher").
Proof.
  assert (H : sub_population (Education "Bachelor's Degree or Higher") [Sample.autauga] =
              ok (Py.lit 11577555 3)) by (vm_compute; reflexivity).
  split.
  - split; [reflexivity|]. split; [exact H|]. split; [reflexivity|].
    exact (proj1 (keyed_county_needs_population (Education "Bachelor's Degree or Higher")
                    [Sample.autauga] [Sample.crawford] RawSample.unpopulated eq_refl)
             _ _ H eq_refl).
  - split; [reflexivity|]. split; [reflexivity|].
    exact (proj2 (keyed_county_needs_population (Education "Bachelor's Degree or Higher")
                    [Sample.autauga] [Sample.crawford] Sample.unrecorded eq_refl)
             eq_refl).
Defined.

(** ** The kind of number returned *)

Lemma add_to_float x b r : Py.add (Py.Float x) b = ok r -> is_float r.
Proof.
  destruct b as [z|y]; unfold Py.add; simpl.
  - destruct (Float64.of_int z); simpl; [discriminate|]. intros [= <-]. exact I.
  - intros [= <-]. exact I.
Qed.

Lemma mul_of_float x b r : Py.mul (Py.Float x) b = ok r -> is_float r.
Proof.
  destruct b as [z|y]; unfold Py.mul; simpl.
  - destruct (Float64.of_int z); simpl; [discriminate|]. intros [= <-]. exact I.
  - intros [= <-]. exact I.
Qed.

Lemma truediv_is_float a b r : Py.truediv a b = ok r -> is_float r.
Proof.
  destruct a as [x|x], b as [y|y]; unfold Py.truediv; simpl.
  - destruct (y =? 0); [discriminate|].
    destruct (Float64.int_quotient x y); try discriminate; intros [= <-]; exact I.
  - destruct (Float64.of_int x); simpl; [discriminate|].
    destruct (Float64.is_zero y); [discriminate|]. intros [= <-]. exact I.
  - destruct (Float64.of_int y) as [e|y']; simpl; [discriminate|].
    destruct (Float64.is_zero y'); [discriminate|]. intros [= <-]. exact I.
  - destruct (Float64.is_zero y); [discriminate|]. intros [= <-]. exact I.
Qed.

Lemma sub_population_loop_float mapping key cs : forall total r,
  is_float total ->
  sub_population_loop mapping key total cs = ok r -> is_float r.
Proof.
  induction cs as [|county cs IH]; intros total r Htotal; simpl.
  - intros [= <-]. exact Htotal.
  - destruct (mapping county !! key) as [percent|]; [|apply IH, Htotal].
    destruct (Py.subscript _ _) as [e|p]; simpl; [discriminate|].
    destruct (Py.truediv _ _) as [e|share]; simpl; [discriminate|].
    destruct (Py.mul _ _) as [e|sub]; simpl; [discriminate|].
    destruct (Py.add total sub) as [e|t] eqn:Hadd; simpl; [discriminate|].
    apply IH. destruct total as [z|x]; [destruct Htotal|].
    exact (add_to_float _ _ _ Hadd).
Qed.

Lemma percent_of_float sub total r : percent_of sub total = ok r -> is_float r.
Proof.
  unfold percent_of. destruct (Py.gt total (Py.Int 0)).
  - destruct (Py.truediv sub total) as [e|q] eqn:Hq; simpl; [discriminate|].
    pose proof (truediv_is_float _ _ _ Hq) as Hf.
    destruct q as [z|x]; [destruct Hf|]. apply mul_of_float.
  - intros [= <-]. exact I.
Qed.

(** X9: whatever a sub-population function or a percent function returns is
    a [float], never an [int]: also on the empty list and when every
    percentage and population is an integer. *)
Theorem statistics_are_floats (a : attribute) (cs : list CountyDemographics)
    (r : Py.num) :
  (sub_population a cs = ok r -> is_float r) /\
  (percent a cs = ok r -> is_float r).
Proof.
  split.
  - rewrite sub_population_eq. apply sub_population_loop_float. exact I.
  - rewrite percent_eq.
    destruct (population_total cs) as [e|total]; simpl; [discriminate|].
    destruct (sub_population a cs) as [e|sub]; simpl; [discriminate|].
    apply percent_of_float.
Qed.

Lemma statistics_are_floats_witness :
  population_by_education [Sample.autauga] "Bachelor's Degree or Higher" =
    ok (Py.lit 11577555 3) /\
  is_float (Py.lit 11577555 3).
Proof.
  assert (H : sub_population (Education "Bachelor's Degree or Higher") [Sample.autauga] =
              ok (Py.lit 11577555 3)) by (vm_compute; reflexivity).
  split; [exact H|].
  exact (proj1 (statistics_are_floats (Education "Bachelor's Degree or Higher")
                  [Sample.autauga] (Py.lit 11577555 3)) H).
Defined.

(** ** The guard of the percent functions *)

Lemma of_int_raises z e : Float64.of_int z = raise e -> e = OverflowError.
Proof.
  unfold Float64.of_int. destruct (binary_normalize _ _ _ _ _); try discriminate.
  intros [= <-]. reflexivity.
Qed.

Lemma truediv_float_raises x total e :
  Py.is_zero total = false ->
  Py.truediv (Py.Float x) total = raise e -> e = OverflowError.
Proof.
  intros Hnz. pose proof (to_float_not_zero total) as Hy.
  destruct total as [z|y]; unfold Py.truediv; simpl in *.
  - destruct (Float64.of_int z) as [e'|y] eqn:Hz; simpl.
    + intros [= <-]. apply (of_int_raises z), Hz.
    + rewrite (Hy y Hnz eq_refl). discriminate.
  - rewrite Hnz. discriminate.
Qed.

Lemma percent_of_positive_kind sub total :
  is_float sub ->
  Py.gt total (Py.Int 0) = true ->
  (exists r, percent_of sub total = ok (Py.Float r)) \/
  percent_of sub total = raise OverflowError.
Proof.
  intros Hsub Hgt. rewrite (percent_of_positive _ _ Hgt).
  destruct sub as [z|x]; [destruct Hsub|].
  destruct (Py.truediv (Py.Float x) total) as [e|quotient] eqn:Hq; simpl.
  - right. rewrite (truediv_float_raises x total e (gt_zero_not_zero _ Hgt) Hq).
    reflexivity.
  - left. pose proof (truediv_is_float _ _ _ Hq) as Hf.
    destruct quotient as [z|q]; [destruct Hf|].
    eexists. reflexivity.
Qed.

(** C3, as stated, fails on a county whose population is a negative integer:
    the total, [-100], is nonzero and the stated formula gives [50.0], but
    the function tests [total_population > 0] and returns [0.0]. *)
Lemma percent_of_negative_total_is_zero :
  population_total [Sample.indebted] = ok (Py.Int (-100)) /\
  Py.is_zero (Py.Int (-100)) = false /\
  percent_by_education [Sample.indebted] "Bachelor's Degree or Higher" =
    ok (Py.Float Float64.zero) /\
  (total ← population_total [Sample.indebted];
   sub ← population_by_education [Sample.indebted] "Bachelor's Degree or Higher";
   percent_spec sub total) = ok (Py.lit 500 1) /\
  Py.eq (Py.Float Float64.zero) (Py.lit 500 1) = false.
Proof. repeat split; vm_compute; reflexivity. Qed.

(** C3, amended: once the total population [total] and the sub-population
    are computed, each percent function returns [0.0] when [total] is [0] or
    less: so when integer populations add up to [0] or to a negative number;
    and it returns [0.0] on the empty list.  When [total] is greater than
    [0] it returns a [float] or raises [OverflowError].  No input makes it
    raise [ZeroDivisionError]. *)
Theorem percent_is_guarded (a : attribute) (cs : list CountyDemographics) :
  (forall total sub,
      population_total cs = ok total ->
      sub_population a cs = ok sub ->
      (Py.gt total (Py.Int 0) = false ->
       percent a cs = ok (Py.Float Float64.zero)) /\
      (Py.gt total (Py.Int 0) = true ->
       (exists r, percent a cs = ok (Py.Float r)) \/
       percent a cs = raise OverflowError)) /\
  (forall populations sub,
      populations_are cs populations ->
      Zsum populations <= 0 ->
      sub_population a cs = ok sub ->
      percent a cs = ok (Py.Float Float64.zero)) /\
  percent a [] = ok (Py.Float Float64.zero) /\
  percent a cs <> raise ZeroDivisionError.
Proof.
  split; [|split; [|split]].
  - intros total sub Htotal Hsub. rewrite percent_eq, Htotal, Hsub. simpl.
    split; intros Hgt.
    + apply percent_of_not_positive, Hgt.
    + apply percent_of_positive_kind; [|exact Hgt].
      rewrite sub_population_eq in Hsub.
      apply (sub_population_loop_float _ _ _ (Py.Float Float64.zero) _ I Hsub).
  - intros populations sub Hpop Hsum Hsub.
    rewrite percent_eq, (population_total_int _ _ Hpop), Hsub. simpl.
    apply percent_of_not_positive. rewrite gt_zero_int.
    apply bool_decide_eq_false. lia.
  - destruct a; reflexivity.
  - rewrite percent_eq.
    apply bind_no_zero_division;
      [apply population_total_loop_no_zero_division|]; intros total _.
    apply bind_no_zero_division;
      [apply sub_population_no_zero_division|]; intros sub _.
    apply percent_of_no_zero_division.
Qed.

Lemma percent_is_guarded_witness :
  (population_total [Sample.indebted] = ok (Py.Int (-100)) /\
   population_by_education [Sample.indebted] "Bachelor's Degree or Higher" =
     ok (Py.lit (-50) 0) /\
   Py.gt (Py.Int (-100)) (Py.Int 0) = false /\
   percent_by_education [Sample.indebted] "Bachelor's Degree or Higher" =
     ok (Py.Float Float64.zero)) /\
  (populations_are [Sample.indebted] [-100] /\
   Zsum [-100] <= 0 /\
   population_below_poverty_level [Sample.indebted] = ok (Py.Float Float64.zero) /\
   percent_below_poverty_level [Sample.indebted] = ok (Py.Float Float64.zero)).
Proof.
  assert (Ht : population_total [Sample.indebted] = ok (Py.Int (-100)))
    by reflexivity.
  assert (Hs : population_by_education [Sample.indebted] "Bachelor's Degree or Higher" =
               ok (Py.lit (-50) 0)) by (vm_compute; reflexivity).
  split.
  - split; [exact Ht|]. split; [exact Hs|]. split; [reflexivity|].
    exact (proj1 (proj1 (percent_is_guarded
                           (Education "Bachelor's Degree or Higher") [Sample.indebted])
                   _ _ Ht Hs) eq_refl).
  - assert (Hp : populations_are [Sample.indebted] [-100]) by (repeat constructor).
    assert (Hz : Zsum [-100] <= 0) by (vm_compute; discriminate).
    split; [exact Hp|]. split; [exact Hz|]. split; [reflexivity|].
    exact (proj1 (proj2 (percent_is_guarded Poverty [Sample.indebted]))
             _ _ Hp Hz eq_refl).
Defined.

(** ** Order of the counties *)

Lemma populations_are_int cs pops :
  populations_are cs pops -> pops = map int_population cs.
Proof.
  intros H. induction H as [|c p cs pops Hp _ IH]; simpl; [reflexivity|].
  unfold int_population at 1. rewrite Hp, IH. reflexivity.
Qed.

Lemma populations_are_map cs :
  Forall (fun c => exists p, demographics c !! "2014 Population" = Some (Py.Int p)) cs ->
  populations_are cs (map int_population cs).
Proof.
  intros H. induction H as [|c cs [p Hp] _ IH]; simpl; constructor; [|exact IH].
  unfold int_population. rewrite Hp. reflexivity.
Qed.

Lemma populations_are_each cs pops :
  populations_are cs pops ->
  Forall (fun c => exists p, demographics c !! "2014 Population" = Some (Py.Int p)) cs.
Proof. intros H. induction H; constructor; eauto. Qed.

Lemma Zsum_permutation l k : l ≡ₚ k -> Zsum l = Zsum k.
Proof.
  intros H. unfold Zsum. induction H; simpl; lia.
Qed.

(** X10: with integer populations the total does not depend on the order of
    the counties: any rearrangement of the list has the same total. *)
Theorem population_total_any_order (cs ds : list CountyDemographics) (pops : list Z) :
  populations_are cs pops ->
  cs ≡ₚ ds ->
  population_total ds = population_total cs /\
  population_total ds = ok (Py.Int (Zsum pops)).
Proof.
  intros Hpops Hperm.
  assert (Hds : populations_are ds (map int_population ds)).
  { apply populations_are_map. rewrite <- Hperm.
    exact (populations_are_each _ _ Hpops). }
  rewrite (population_total_int _ _ Hpops), (population_total_int _ _ Hds).
  rewrite (populations_are_int _ _ Hpops).
  assert (Hsum : Zsum (map int_population ds) = Zsum (map int_population cs)).
  { apply Zsum_permutation. rewrite Hperm. reflexivity. }
  rewrite Hsum. split; reflexivity.
Qed.

Lemma population_total_any_order_witness :
  populations_are [Sample.autauga; Sample.crawford; Sample.yolo] [55395; 61697; 207590] /\
  [Sample.autauga; Sample.crawford; Sample.yolo] ≡ₚ
    [Sample.yolo; Sample.autauga; Sample.crawford] /\
  population_total [Sample.yolo; Sample.autauga; Sample.crawford] =
    population_total [Sample.autauga; Sample.crawford; Sample.yolo].
Proof.
  assert (H : populations_are [Sample.autauga; Sample.crawford; Sample.yolo]
                [55395; 61697; 207590]) by (repeat constructor).
  assert (Hperm : [Sample.autauga; Sample.crawford; Sample.yolo] ≡ₚ
                  [Sample.yolo; Sample.autauga; Sample.crawford]).
  { symmetry. apply (Permutation_cons_app [_; _] []). reflexivity. }
  split; [exact H|]. split; [exact Hperm|].
  exact (proj1 (population_total_any_order _ _ _ H Hperm)).
Defined.

(** ** Totals by state *)

Lemma populations_are_filter_by_state cs pops s :
  populations_are cs pops ->
  populations_are (filter_by_state cs s) (map int_population (filter_by_state cs s)).
Proof.
  intros H. apply populations_are_map.
  apply Forall_forall. intros c Hc.
  apply elem_of_comprehension in Hc as [Hc _].
  pose proof (populations_are_each _ _ H) as Hall.
  rewrite Forall_forall in Hall. apply Hall, Hc.
Qed.

Lemma Zsum_one_state (x : string) (p : Z) (states : list string) :
  NoDup states -> x ∈ states ->
  Zsum (map (fun s => if String.eqb x s then p else 0) states) = p.
Proof.
  intros Hnd. induction Hnd as [|s states Hs _ IH]; intros Hx.
  - apply elem_of_nil in Hx. destruct Hx.
  - unfold Zsum in *. simpl. apply elem_of_cons in Hx as [->|Hx].
    + rewrite String.eqb_refl.
      assert (H0 : foldr Z.add 0 (map (fun s0 => if String.eqb s s0 then p else 0) states) = 0).
      { clear IH. induction states as [|t states IH]; simpl; [reflexivity|].
        destruct (String.eqb_spec s t) as [->|Hne].
        - exfalso. apply Hs. left.
        - rewrite IH; [lia|]. intros Hin. apply Hs. right. exact Hin. }
      rewrite H0. lia.
    + destruct (String.eqb_spec x s) as [->|Hne]; [contradiction|].
      rewrite (IH Hx). lia.
Qed.

Lemma Zsum_map_add {A : Type} (f g : A -> Z) (l : list A) :
  Zsum (map (fun x => f x + g x) l) = Zsum (map f l) + Zsum (map g l).
Proof. unfold Zsum. induction l as [|x l IH]; simpl; lia. Qed.

Lemma state_totals_sum cs states :
  NoDup states ->
  (forall c, c ∈ cs -> state c ∈ states) ->
  Zsum (map (fun s => Zsum (map int_population (filter_by_state cs s))) states) =
  Zsum (map int_population cs).
Proof.
  intros Hnd. induction cs as [|c cs IH]; intros Hin.
  - unfold filter_by_state, Zsum. simpl. clear. induction states; simpl; lia.
  - assert (Hstep : forall s,
        Zsum (map int_population (filter_by_state (c :: cs) s)) =
        (if String.eqb (state c) s then int_population c else 0) +
        Zsum (map int_population (filter_by_state cs s))).
    { intros s. unfold filter_by_state. simpl.
      destruct (String.eqb (state c) s); unfold Zsum; simpl; lia. }
    rewrite (map_ext _ _ Hstep), Zsum_map_add.
    rewrite Zsum_one_state by (auto; apply Hin; left).
    rewrite IH by (intros d Hd; apply Hin; right; exact Hd).
    unfold Zsum. simpl. lia.
Qed.

(** X11: the totals of the states add up to the total of the list: with
    integer populations, and a list of distinct state codes among which
    every county's state is found, [population_total] of each state's
    counties is an integer, and these integers sum to the total population. *)
Theorem state_totals_add_up (cs : list CountyDemographics) (pops : list Z)
    (states : list string) :
  populations_are cs pops ->
  NoDup states ->
  (forall c, c ∈ cs -> state c ∈ states) ->
  exists totals,
    Forall2 (fun s t => population_total (filter_by_state cs s) = ok (Py.Int t))
      states totals /\
    population_total cs = ok (Py.Int (Zsum totals)).
Proof.
  intros Hpops Hnd Hin.
  exists (map (fun s => Zsum (map int_population (filter_by_state cs s))) states).
  split.
  - apply Forall2_fmap_r, Forall_Forall2_diag, Forall_forall. intros s _.
    apply population_total_int, (populations_are_filter_by_state cs pops), Hpops.
  - rewrite (state_totals_sum cs states Hnd Hin), <- (populations_are_int _ _ Hpops).
    apply population_total_int, Hpops.
Qed.

Lemma state_totals_add_up_witness :
  populations_are Sample.reduced_data [55395; 61697; 279083; 207590; 2622; 42225; 7201] /\
  NoDup ["AL"; "AR"; "CA"; "ID"; "MO"; "WY"]%string /\
  (forall c, c ∈ Sample.reduced_data ->
             state c ∈ ["AL"; "AR"; "CA"; "ID"; "MO"; "WY"]%string) /\
  exists totals,
    Forall2 (fun s t => population_total (filter_by_state Sample.reduced_data s) =
                        ok (Py.Int t))
      ["AL"; "AR"; "CA"; "ID"; "MO"; "WY"]%string totals /\
    population_total Sample.reduced_data = ok (Py.Int (Zsum totals)).
Proof.
  assert (H : populations_are Sample.reduced_data
                [55395; 61697; 279083; 207590; 2622; 42225; 7201])
    by (repeat constructor).
  assert (Hnd : NoDup ["AL"; "AR"; "CA"; "ID"; "MO"; "WY"]%string)
    by compute_done.
  assert (Hin : forall c, c ∈ Sample.reduced_data ->
                  state c ∈ ["AL"; "AR"; "CA"; "ID"; "MO"; "WY"]%string).
  { intros c Hc.
    repeat (apply elem_of_cons in Hc as [->|Hc];
            [compute_done|]).
    apply elem_of_nil in Hc. destruct Hc. }
  split; [exact H|]. split; [exact Hnd|]. split; [exact Hin|].
  exact (state_totals_add_up Sample.reduced_data _ _ H Hnd Hin).
Defined.

(** ** Filters one after the other *)

Lemma comprehension_twice {A : Type} (f g : A -> bool) (l : list A) :
  List.filter f (List.filter g l) = List.filter (fun x => g x && f x) l.
Proof.
  induction l as [|x l IH]; simpl; [reflexivity|].
  destruct (g x); simpl; [destruct (f x)|]; rewrite IH; reflexivity.
Qed.

Lemma comprehension_none {A : Type} (f : A -> bool) (l : list A) :
  (forall x, f x = false) -> List.filter f l = [].
Proof.
  intros H. induction l as [|x l IH]; simpl; [reflexivity|]. rewrite H. exact IH.
Qed.

Lemma comprehension_all {A : Type} (f : A -> bool) (l : list A) :
  (forall x, x ∈ l -> f x = true) -> List.filter f l = l.
Proof.
  induction l as [|x l IH]; intros H; simpl; [reflexivity|].
  rewrite (H x (list_elem_of_here x l)), IH; [reflexivity|].
  intros y Hy. apply H. right. exact Hy.
Qed.

Lemma comprehension_nothing {A : Type} (f : A -> bool) (l : list A) :
  (forall x, x ∈ l -> f x = false) -> List.filter f l = [].
Proof.
  induction l as [|x l IH]; intros H; simpl; [reflexivity|].
  rewrite (H x (list_elem_of_here x l)). apply IH.
  intros y Hy. apply H. right. exact Hy.
Qed.

Lemma comprehension_swap {A : Type} (f g : A -> bool) (l : list A) :
  List.filter f (List.filter g l) = List.filter g (List.filter f l).
Proof.
  rewrite !comprehension_twice. apply comprehension_ext.
  intros x. apply andb_comm.
Qed.

(** X12: filtering by state twice: by the same state it changes nothing
    more, by another state it leaves nothing. *)
Theorem filter_by_state_twice (cs : list CountyDemographics) (s s' : string) :
  filter_by_state (filter_by_state cs s) s' =
    if decide (s = s') then filter_by_state cs s else [].
Proof.
  unfold filter_by_state. rewrite comprehension_twice.
  destruct (decide (s = s')) as [<-|Hne].
  - apply comprehension_ext. intros c. apply andb_diag.
  - apply comprehension_none. intros c.
    destruct (String.eqb_spec (state c) s) as [->|]; [|reflexivity].
    simpl. apply String.eqb_neq, Hne.
Qed.

(** X13: the filters can be applied in any order: a threshold filter and the
    state filter commute, two threshold filters commute, whatever their
    attributes and thresholds; a threshold filter applied twice changes
    nothing more, and nothing passes both the greater-than and the less-than
    filter of one attribute and threshold. *)
Theorem filters_commute (a b : attribute) (cs : list CountyDemographics)
    (t u : Py.num) (s : string) :
  greater_than a (filter_by_state cs s) t = filter_by_state (greater_than a cs t) s /\
  less_than a (filter_by_state cs s) t = filter_by_state (less_than a cs t) s /\
  greater_than a (greater_than b cs u) t = greater_than b (greater_than a cs t) u /\
  greater_than a (less_than b cs u) t = less_than b (greater_than a cs t) u /\
  less_than a (less_than b cs u) t = less_than b (less_than a cs t) u /\
  greater_than a (greater_than a cs t) t = greater_than a cs t /\
  less_than a (less_than a cs t) t = less_than a cs t /\
  less_than a (greater_than a cs t) t = [] /\
  greater_than a (less_than a cs t) t = [].
Proof.
  rewrite !greater_than_eq, !less_than_eq. unfold filter_by_state.
  repeat match goal with |- _ /\ _ => split end;
    try apply comprehension_swap.
  - rewrite comprehension_twice. apply comprehension_ext. intros c. apply andb_diag.
  - rewrite comprehension_twice. apply comprehension_ext. intros c. apply andb_diag.
  - rewrite comprehension_twice. apply comprehension_none. intros c.
    unfold Py.gt, Py.lt. destruct (Py.compare _ _) as [[]|]; reflexivity.
  - rewrite comprehension_twice. apply comprehension_none. intros c.
    unfold Py.gt, Py.lt. destruct (Py.compare _ _) as [[]|]; reflexivity.
Qed.

(** ** The three parts, for every attribute *)

(** X14: for the ethnicity and the poverty filters as for the education
    ones: the greater-than and the less-than filter share no county and
    together keep no more counties than the list has; when neither the
    threshold nor a value of the list is NaN, they and the counties whose
    value equals the threshold rebuild the list, up to order. *)
Theorem three_way_partition (a : attribute) (cs : list CountyDemographics)
    (t : Py.num) :
  (forall c, c ∈ greater_than a cs t -> c ∈ less_than a cs t -> False) /\
  (length (greater_than a cs t) + length (less_than a cs t) <= length cs)%nat /\
  (Py.is_nan t = false ->
   (forall c, c ∈ cs ->
      Py.is_nan (attribute_value (mapping_of a c) (key_of a)) = false) ->
   greater_than a cs t ++ equal_to a cs t ++ less_than a cs t ≡ₚ cs).
Proof.
  split; [|split].
  - intros c. rewrite elem_of_greater_than, elem_of_less_than.
    intros [_ Hgt] [_ Hlt]. exact (gt_lt_exclusive _ _ Hgt Hlt).
  - rewrite greater_than_eq, less_than_eq.
    induction cs as [|c cs IH]; simpl; [lia|].
    rewrite !get_is_attribute_value.
    pose proof (gt_lt_exclusive (attribute_value (mapping_of a c) (key_of a)) t) as Hx.
    destruct (Py.gt _ _), (Py.lt _ _); simpl;
      first [lia | destruct (Hx eq_refl eq_refl)].
  - intros Ht Hvalues. rewrite greater_than_eq, less_than_eq. unfold equal_to.
    apply three_way_split. intros c Hc. rewrite get_is_attribute_value.
    apply no_nan_one_of_three; [apply Hvalues, Hc | exact Ht].
Qed.

Lemma three_way_partition_witness :
  Py.is_nan (Py.lit 67 1) = false /\
  (forall c, c ∈ Sample.reduced_data ->
     Py.is_nan (attribute_value (ethnicity c) "Hispanic or Latino") = false) /\
  ethnicity_greater_than Sample.reduced_data "Hispanic or Latino" (Py.lit 67 1) ++
    equal_to (Ethnicity "Hispanic or Latino") Sample.reduced_data (Py.lit 67 1) ++
    ethnicity_less_than Sample.reduced_data "Hispanic or Latino" (Py.lit 67 1)
  ≡ₚ Sample.reduced_data.
Proof.
  assert (H : forall c, c ∈ Sample.reduced_data ->
     Py.is_nan (attribute_value (ethnicity c) "Hispanic or Latino") = false).
  { intros c Hc. repeat (apply elem_of_cons in Hc as [->|Hc]; [reflexivity|]).
    apply elem_of_nil in Hc. destruct Hc. }
  split; [reflexivity|]. split; [exact H|].
  exact (proj2 (proj2 (three_way_partition (Ethnicity "Hispanic or Latino")
                         Sample.reduced_data (Py.lit 67 1))) eq_refl H).
Defined.

(** ** A key no county has *)

Lemma binary_round_aux_keeps_sign sx p e l :
  -1074 <= e ->
  (exists m e', binary_round_aux Float64.prec Float64.emax sx (Zpos p) e l =
                S754_finite sx m e') \/
  binary_round_aux Float64.prec Float64.emax sx (Zpos p) e l = S754_infinity sx.
Proof.
  intros He. unfold binary_round_aux.
  destruct (shr_fexp_positive p e l He) as (p1 & r1 & s1 & e1 & -> & He1).
  cbn [shr_m].
  destruct (round_nearest_even_positive p1
              (loc_of_shr_record {| shr_m := Z.pos p1; shr_r := r1; shr_s := s1 |}))
    as (p2 & ->).
  destruct (shr_fexp_positive p2 e1 loc_Exact He1) as (p3 & r3 & s3 & e3 & -> & _).
  cbn [shr_m]. destruct (_ <=? _); eauto.
Qed.

Lemma of_int_positive_shape z y :
  0 < z -> Float64.of_int z = ok y -> exists m e, y = S754_finite false m e.
Proof.
  intros Hz. destruct z as [|p|p]; try lia.
  unfold Float64.of_int, binary_normalize, binary_round, shl_align.
  assert (Haux : forall q e, -1074 <= e ->
            match binary_round_aux Float64.prec Float64.emax false (Zpos q) e loc_Exact with
            | S754_infinity _ => raise OverflowError
            | x => ok x
            end = ok y -> exists m e', y = S754_finite false m e').
  { intros q e He.
    destruct (binary_round_aux_keeps_sign false q e loc_Exact He) as [(m & e' & ->)| ->].
    - intros [= <-]. eauto.
    - discriminate. }
  destruct (fexp Float64.prec Float64.emax (Z.pos (digits2_pos p) + 0) - 0) eqn:Hn;
    apply Haux; try lia.
  unfold fexp, emin, Float64.prec, Float64.emax. lia.
Qed.

Lemma positive_to_float total y :
  Py.gt total (Py.Int 0) = true ->
  Py.to_float total = ok y ->
  (exists m e, y = S754_finite false m e) \/ y = S754_infinity false.
Proof.
  unfold Py.gt. destruct total as [z|x]; simpl.
  - destruct (Z.compare_spec z 0); try discriminate. intros _ Hy.
    left. apply (of_int_positive_shape z); [lia | exact Hy].
  - intros Hgt [= <-]. destruct x as [s|s| |s m e]; simpl in Hgt; try discriminate.
    + destruct s; [discriminate | right; reflexivity].
    + left. destruct s; [|eauto]. exfalso.
      destruct e as [|q|q]; simpl in Hgt; try discriminate.
      destruct (Z.neg m * 2 ^ Z.pos q) eqn:E; simpl in Hgt; try discriminate.
      pose proof (Z.pow_pos_nonneg 2 (Z.pos q) ltac:(lia) ltac:(lia)). nia.
Qed.

Lemma percent_of_zero total y :
  Py.to_float total = ok y ->
  percent_of (Py.Float Float64.zero) total = ok (Py.Float Float64.zero).
Proof.
  intros Hy. unfold percent_of.
  destruct (Py.gt total (Py.Int 0)) eqn:Hgt; [|reflexivity].
  assert (Hdiv : Py.truediv (Py.Float Float64.zero) total = ok (Py.Float Float64.zero)).
  { destruct (positive_to_float total y Hgt Hy) as [(m & e & ->)| ->];
      destruct total as [z|x]; unfold Py.truediv; simpl in *.
    - rewrite Hy. reflexivity.
    - injection Hy as ->. reflexivity.
    - rewrite Hy. reflexivity.
    - injection Hy as ->. reflexivity. }
  rewrite Hdiv. vm_compute. reflexivity.
Qed.

Lemma percent_of_zero_or_overflow total :
  percent_of (Py.Float Float64.zero) total = ok (Py.Float Float64.zero) \/
  percent_of (Py.Float Float64.zero) total = raise OverflowError.
Proof.
  destruct (Py.to_float total) as [e|y] eqn:Hy.
  - destruct total as [z|x]; simpl in Hy; [|discriminate].
    unfold percent_of. destruct (Py.gt _ _); [|left; reflexivity].
    right. unfold Py.truediv. simpl. rewrite Hy. simpl.
    unfold Float64.of_int in Hy.
    destruct (binary_normalize _ _ _ _ _); try discriminate.
    injection Hy as <-. reflexivity.
  - left. apply (percent_of_zero total y Hy).
Qed.

Lemma sub_population_loop_no_key mapping key total cs :
  (forall c, c ∈ cs -> mapping c !! key = None) ->
  sub_population_loop mapping key total cs = ok total.
Proof.
  induction cs as [|c cs IH]; intros H; simpl; [reflexivity|].
  rewrite (H c (list_elem_of_here c cs)). apply IH.
  intros d Hd. apply H. right. exact Hd.
Qed.

(** X15: when no county of the list has the attribute's key, the
    sub-population is [0.0], even if populations are missing; the percentage
    is [0.0] once the total population is computed, unless that total is a
    positive integer too large for a float, which raises [OverflowError]; and
    each filter keeps all of the list or nothing, as [0] passes its test or
    fails it. *)
Theorem unknown_key_counts_as_zero (a : attribute) (cs : list CountyDemographics)
    (t : Py.num) :
  (forall c, c ∈ cs -> mapping_of a c !! key_of a = None) ->
  sub_population a cs = ok (Py.Float Float64.zero) /\
  (forall total, population_total cs = ok total ->
     percent a cs = ok (Py.Float Float64.zero) \/ percent a cs = raise OverflowError) /\
  (forall total y, population_total cs = ok total -> Py.to_float total = ok y ->
     percent a cs = ok (Py.Float Float64.zero)) /\
  greater_than a cs t = (if Py.gt (Py.Int 0) t then cs else []) /\
  less_than a cs t = (if Py.lt (Py.Int 0) t then cs else []).
Proof.
  intros Hnone.
  assert (Hsub : sub_population a cs = ok (Py.Float Float64.zero))
    by (rewrite sub_population_eq; apply sub_population_loop_no_key, Hnone).
  split; [exact Hsub|]. split; [|split; [|split]].
  - intros total Htotal. rewrite percent_eq, Htotal, Hsub. simpl.
    apply percent_of_zero_or_overflow.
  - intros total y Htotal Hy. rewrite percent_eq, Htotal, Hsub. simpl.
    apply (percent_of_zero total y Hy).
  - rewrite greater_than_eq. destruct (Py.gt (Py.Int 0) t) eqn:E.
    + apply comprehension_all. intros c Hc.
      rewrite get_is_attribute_value, (attribute_value_missing _ _ (Hnone c Hc)). exact E.
    + apply comprehension_nothing. intros c Hc.
      rewrite get_is_attribute_value, (attribute_value_missing _ _ (Hnone c Hc)). exact E.
  - rewrite less_than_eq. destruct (Py.lt (Py.Int 0) t) eqn:E.
    + apply comprehension_all. intros c Hc.
      rewrite get_is_attribute_value, (attribute_value_missing _ _ (Hnone c Hc)). exact E.
    + apply comprehension_nothing. intros c Hc.
      rewrite get_is_attribute_value, (attribute_value_missing _ _ (Hnone c Hc)). exact E.
Qed.

Lemma unknown_key_counts_as_zero_witness :
  (forall c, c ∈ Sample.reduced_data -> education c !! "Doctorate" = None) /\
  population_by_education Sample.reduced_data "Doctorate" = ok (Py.Float Float64.zero) /\
  percent_by_education Sample.reduced_data "Doctorate" = ok (Py.Float Float64.zero) /\
  education_less_than Sample.reduced_data "Doctorate" (Py.lit 10 1) = Sample.reduced_data /\
  education_greater_than Sample.reduced_data "Doctorate" (Py.lit 10 1) = [].
Proof.
  assert (H : forall c, c ∈ Sample.reduced_data -> education c !! "Doctorate" = None).
  { intros c Hc. repeat (apply elem_of_cons in Hc as [->|Hc]; [reflexivity|]).
    apply elem_of_nil in Hc. destruct Hc. }
  destruct (unknown_key_counts_as_zero (Education "Doctorate") Sample.reduced_data
              (Py.lit 10 1) H) as (Hsub & _ & Hpct & Hgt & Hlt).
  split; [exact H|]. split; [exact Hsub|]. split.
  - exact (Hpct (Py.Int 655813) _ eq_refl eq_refl).
  - split; [exact Hlt | exact Hgt].
Defined.

(** ** Comparison is comparison of values *)

Lemma digits2_pos_bounds m :
  2 ^ (Zpos (digits2_pos m) - 1) <= Zpos m < 2 ^ Zpos (digits2_pos m).
Proof.
  induction m as [m IH|m IH|]; cbn [digits2_pos].
  - rewrite Pos2Z.inj_succ, Z.pow_succ_r by lia.
    replace (Z.succ (Zpos (digits2_pos m)) - 1) with (Z.succ (Zpos (digits2_pos m) - 1)) by lia.
    rewrite Z.pow_succ_r by lia. lia.
  - rewrite Pos2Z.inj_succ, Z.pow_succ_r by lia.
    replace (Z.succ (Zpos (digits2_pos m)) - 1) with (Z.succ (Zpos (digits2_pos m) - 1)) by lia.
    rewrite Z.pow_succ_r by lia. lia.
  - simpl. lia.
Qed.

Lemma bounded_shape m e :
  bounded Float64.prec Float64.emax m e = true ->
  -1074 <= e /\ Zpos m < 2 ^ 53 /\ (2 ^ 52 <= Zpos m \/ e = -1074).
Proof.
  unfold bounded, canonical_mantissa, fexp, emin, Float64.prec, Float64.emax.
  intros [Hc _]%andb_prop. apply Z.eqb_eq in Hc.
  pose proof (digits2_pos_bounds m) as [Hlo Hhi].
  assert (Hd : Zpos (digits2_pos m) <= 53) by lia.
  split; [lia|]. split.
  - eapply Z.lt_le_trans; [exact Hhi|]. apply Z.pow_le_mono_r; lia.
  - destruct (Z.eq_dec e (-1074)) as [->|Hne]; [right; reflexivity|left].
    assert (Zpos (digits2_pos m) = 53) as Hd53 by lia.
    rewrite Hd53 in Hlo. exact Hlo.
Qed.

Lemma scaled_exponent_order m1 e1 m2 e2 :
  bounded Float64.prec Float64.emax m1 e1 = true ->
  bounded Float64.prec Float64.emax m2 e2 = true ->
  e1 < e2 ->
  Zpos m1 * 2 ^ (e1 + 1074) < Zpos m2 * 2 ^ (e2 + 1074).
Proof.
  intros H1 H2 He.
  destruct (bounded_shape m1 e1 H1) as (He1 & Hm1 & _).
  destruct (bounded_shape m2 e2 H2) as (He2 & _ & [Hm2|Hm2]); [|lia].
  assert (HA : 0 < 2 ^ (e1 + 1074)) by (apply Z.pow_pos_nonneg; lia).
  assert (HB : 2 * 2 ^ (e1 + 1074) <= 2 ^ (e2 + 1074)).
  { rewrite <- Z.pow_succ_r by lia. apply Z.pow_le_mono_r; lia. }
  assert (HP : (2 : Z) ^ 53 = 2 * 2 ^ 52) by reflexivity.
  nia.
Qed.

Lemma Zcompare_mul_r (x y k : Z) : 0 < k -> (x * k ?= y * k) = (x ?= y).
Proof.
  intros Hk. destruct (Z.compare_spec x y) as [->|H|H].
  - apply Z.compare_refl.
  - apply Z.compare_lt_iff. nia.
  - apply Z.compare_gt_iff. nia.
Qed.

Lemma compare_cont_Eq m1 m2 : Pos.compare_cont Eq m1 m2 = (Zpos m1 ?= Zpos m2).
Proof. reflexivity. Qed.

Lemma compare_scaled_same_exponent (x y e : Z) :
  -1074 <= e -> (x * 2 ^ (e + 1074) ?= y * 2 ^ (e + 1074)) = (x ?= y).
Proof.
  intros He. apply Zcompare_mul_r. apply Z.pow_pos_nonneg; lia.
Qed.

Lemma compare_finite s1 m1 e1 s2 m2 e2 :
  bounded Float64.prec Float64.emax m1 e1 = true ->
  bounded Float64.prec Float64.emax m2 e2 = true ->
  Float64.compare (S754_finite s1 m1 e1) (S754_finite s2 m2 e2) =
  Some (scaled (Py.Float (S754_finite s1 m1 e1)) ?= scaled (Py.Float (S754_finite s2 m2 e2))).
Proof.
  intros H1 H2. unfold Float64.compare, SFcompare, scaled. f_equal.
  destruct (bounded_shape m1 e1 H1) as (He1 & _ & _).
  destruct (bounded_shape m2 e2 H2) as (He2 & _ & _).
  assert (HA : 0 < 2 ^ (e1 + 1074)) by (apply Z.pow_pos_nonneg; lia).
  assert (HB : 0 < 2 ^ (e2 + 1074)) by (apply Z.pow_pos_nonneg; lia).
  destruct s1, s2.
  - (* both negative *)
    destruct (Z.compare_spec e1 e2) as [->|He|He].
    + rewrite compare_scaled_same_exponent by lia. reflexivity.
    + symmetry. apply Z.compare_gt_iff.
      pose proof (scaled_exponent_order m1 e1 m2 e2 H1 H2 He). lia.
    + symmetry. apply Z.compare_lt_iff.
      pose proof (scaled_exponent_order m2 e2 m1 e1 H2 H1 ltac:(lia)). lia.
  - symmetry. apply Z.compare_lt_iff. nia.
  - symmetry. apply Z.compare_gt_iff. nia.
  - destruct (Z.compare_spec e1 e2) as [->|He|He].
    + rewrite compare_cont_Eq, compare_scaled_same_exponent by lia. reflexivity.
    + symmetry. apply Z.compare_lt_iff.
      exact (scaled_exponent_order m1 e1 m2 e2 H1 H2 He).
    + symmetry. apply Z.compare_gt_iff.
      pose proof (scaled_exponent_order m2 e2 m1 e1 H2 H1 ltac:(lia)). lia.
Qed.

Lemma compare_int_finite z s m e :
  bounded Float64.prec Float64.emax m e = true ->
  Float64.compare_int z (S754_finite s m e) =
  Some (scaled (Py.Int z) ?= scaled (Py.Float (S754_finite s m e))).
Proof.
  intros H. destruct (bounded_shape m e H) as (He & _ & _).
  unfold Float64.compare_int, scaled. f_equal.
  set (v := if s then Z.neg m else Z.pos m).
  destruct e as [|q|q].
  - rewrite Z.mul_1_r. symmetry. apply Zcompare_mul_r. reflexivity.
  - replace (Z.pos q + 1074) with (1074 + Z.pos q) by lia.
    rewrite Z.pow_add_r, (Z.mul_comm (2 ^ 1074)), Z.mul_assoc by lia.
    symmetry. apply Zcompare_mul_r. reflexivity.
  - assert (Hq : Z.pos q <= 1074) by lia.
    replace (2 ^ 1074) with (2 ^ Z.pos q * 2 ^ (Z.neg q + 1074)).
    + rewrite Z.mul_assoc. symmetry. apply Zcompare_mul_r.
      apply Z.pow_pos_nonneg; lia.
    + rewrite <- Z.pow_add_r by lia. f_equal. lia.
Qed.

Lemma compare_values_antisym a b : CompOpp (compare_values a b) = compare_values b a.
Proof.
  unfold compare_values.
  rewrite (Z.compare_antisym (rank a) (rank b)).
  rewrite (Z.compare_antisym (scaled a) (scaled b)).
  destruct (rank a ?= rank b); reflexivity.
Qed.

Lemma compare_int_is_compare_values z x :
  valid (Py.Float x) -> Float64.is_nan x = false ->
  Float64.compare_int z x = Some (compare_values (Py.Int z) (Py.Float x)).
Proof.
  intros Hx Hnan. destruct x as [s|s| |s m e]; try discriminate.
  - unfold compare_values. simpl. f_equal.
    change 0 with (0 * 2 ^ 1074) at 2. symmetry. apply Zcompare_mul_r. reflexivity.
  - destruct s; reflexivity.
  - rewrite (compare_int_finite z s m e Hx). reflexivity.
Qed.

Lemma compare_is_compare_values a b :
  valid a -> valid b -> Py.is_nan a = false -> Py.is_nan b = false ->
  Py.compare a b = Some (compare_values a b).
Proof.
  destruct a as [x|x], b as [y|y]; intros Ha Hb Hna Hnb.
  - unfold compare_values. simpl. f_equal. symmetry. apply Zcompare_mul_r. reflexivity.
  - apply compare_int_is_compare_values; assumption.
  - simpl. rewrite (compare_int_is_compare_values y x Ha Hna). simpl.
    rewrite compare_values_antisym. reflexivity.
  - destruct x as [s1|s1| |s1 m1 e1], y as [s2|s2| |s2 m2 e2]; try discriminate.
    + reflexivity.
    + destruct s2; reflexivity.
    + destruct (bounded_shape m2 e2 Hb) as (He & _ & _).
      assert (0 < 2 ^ (e2 + 1074)) by (apply Z.pow_pos_nonneg; lia).
      change (Some (if s2 then Gt else Lt) =
              Some (0 ?= (if s2 then Z.neg m2 else Z.pos m2) * 2 ^ (e2 + 1074))).
      f_equal. symmetry.
      destruct s2; [apply Z.compare_gt_iff | apply Z.compare_lt_iff]; nia.
    + destruct s1; reflexivity.
    + destruct s1, s2; reflexivity.
    + destruct s1; reflexivity.
    + destruct (bounded_shape m1 e1 Ha) as (He & _ & _).
      assert (0 < 2 ^ (e1 + 1074)) by (apply Z.pow_pos_nonneg; lia).
      change (Some (if s1 then Lt else Gt) =
              Some ((if s1 then Z.neg m1 else Z.pos m1) * 2 ^ (e1 + 1074) ?= 0)).
      f_equal. symmetry.
      destruct s1; [apply Z.compare_lt_iff | apply Z.compare_gt_iff]; nia.
    + destruct s2; reflexivity.
    + exact (compare_finite s1 m1 e1 s2 m2 e2 Ha Hb).
Qed.

Lemma compare_some_not_nan a b c :
  Py.compare a b = Some c -> Py.is_nan a = false /\ Py.is_nan b = false.
Proof.
  destruct a as [x|x], b as [y|y]; simpl; auto.
  - destruct y; simpl; auto; discriminate.
  - destruct x; simpl; auto; discriminate.
  - destruct x, y; simpl; auto; discriminate.
Qed.

Lemma compare_values_below_above low high v :
  compare_values low high <> Gt ->
  compare_values v high = Gt ->
  compare_values v low = Gt.
Proof.
  unfold compare_values.
  destruct (Z.compare_spec (rank low) (rank high)),
           (Z.compare_spec (rank v) (rank high)),
           (Z.compare_spec (rank v) (rank low)),
           (Z.compare_spec (scaled low) (scaled high)),
           (Z.compare_spec (scaled v) (scaled high)),
           (Z.compare_spec (scaled v) (scaled low));
    intros; try reflexivity; try congruence; lia.
Qed.

Lemma compare_values_above_below low high v :
  compare_values low high <> Gt ->
  compare_values v low = Lt ->
  compare_values v high = Lt.
Proof.
  unfold compare_values.
  destruct (Z.compare_spec (rank low) (rank high)),
           (Z.compare_spec (rank v) (rank high)),
           (Z.compare_spec (rank v) (rank low)),
           (Z.compare_spec (scaled low) (scaled high)),
           (Z.compare_spec (scaled v) (scaled high)),
           (Z.compare_spec (scaled v) (scaled low));
    intros; try reflexivity; try congruence; lia.
Qed.

Lemma not_above_values low high :
  valid low -> valid high ->
  Py.lt low high = true \/ Py.eq low high = true ->
  Py.is_nan low = false /\ Py.is_nan high = false /\ compare_values low high <> Gt.
Proof.
  intros Hl Hh Hle.
  assert (Hc : exists c, Py.compare low high = Some c /\ c <> Gt).
  { unfold Py.lt, Py.eq in Hle.
    destruct (Py.compare low high) as [[]|]; destruct Hle; try discriminate;
      eexists; split; try reflexivity; discriminate. }
  destruct Hc as (c & Hc & Hne).
  destruct (compare_some_not_nan _ _ _ Hc) as [Hnl Hnh].
  rewrite (compare_is_compare_values _ _ Hl Hh Hnl Hnh) in Hc.
  injection Hc as <-. auto.
Qed.

Lemma gt_monotone low high v :
  valid low -> valid high -> valid v ->
  Py.lt low high = true \/ Py.eq low high = true ->
  Py.gt v high = true -> Py.gt v low = true.
Proof.
  intros Hl Hh Hv Hle Hgt.
  destruct (not_above_values low high Hl Hh Hle) as (Hnl & Hnh & Hne).
  unfold Py.gt in *.
  destruct (Py.compare v high) as [[]|] eqn:Hc; try discriminate.
  destruct (compare_some_not_nan _ _ _ Hc) as [Hnv _].
  rewrite (compare_is_compare_values _ _ Hv Hh Hnv Hnh) in Hc. injection Hc as Hc.
  rewrite (compare_is_compare_values _ _ Hv Hl Hnv Hnl).
  rewrite (compare_values_below_above low high v Hne Hc). reflexivity.
Qed.

Lemma lt_monotone low high v :
  valid low -> valid high -> valid v ->
  Py.lt low high = true \/ Py.eq low high = true ->
  Py.lt v low = true -> Py.lt v high = true.
Proof.
  intros Hl Hh Hv Hle Hlt.
  destruct (not_above_values low high Hl Hh Hle) as (Hnl & Hnh & Hne).
  unfold Py.lt in *.
  destruct (Py.compare v low) as [[]|] eqn:Hc; try discriminate.
  destruct (compare_some_not_nan _ _ _ Hc) as [Hnv _].
  rewrite (compare_is_compare_values _ _ Hv Hl Hnv Hnl) in Hc. injection Hc as Hc.
  rewrite (compare_is_compare_values _ _ Hv Hh Hnv Hnh).
  rewrite (compare_values_above_below low high v Hne Hc). reflexivity.
Qed.

Lemma comprehension_ext_in {A : Type} (f g : A -> bool) (l : list A) :
  (forall x, x ∈ l -> f x = g x) -> List.filter f l = List.filter g l.
Proof.
  induction l as [|x l IH]; intros H; simpl; [reflexivity|].
  rewrite (H x (list_elem_of_here x l)), IH; [reflexivity|].
  intros y Hy. apply H. right. exact Hy.
Qed.

(** X16: the filters compare exact values.  For a threshold and values that
    are integers or doubles in canonical form, none of them NaN, a county is
    kept by the greater-than (less-than) filter exactly when its value, [0]
    for an absent key, is greater (less) than the threshold as numbers:
    nothing is rounded, also when one is an [int] and the other a [float]. *)
Theorem filters_compare_values (a : attribute) (cs : list CountyDemographics)
    (t : Py.num) (c : CountyDemographics) :
  valid t -> Py.is_nan t = false ->
  valid (attribute_value (mapping_of a c) (key_of a)) ->
  Py.is_nan (attribute_value (mapping_of a c) (key_of a)) = false ->
  (c ∈ greater_than a cs t <->
     c ∈ cs /\ compare_values (attribute_value (mapping_of a c) (key_of a)) t = Gt) /\
  (c ∈ less_than a cs t <->
     c ∈ cs /\ compare_values (attribute_value (mapping_of a c) (key_of a)) t = Lt).
Proof.
  intros Ht Hnt Hv Hnv.
  rewrite elem_of_greater_than, elem_of_less_than.
  unfold Py.gt, Py.lt. rewrite (compare_is_compare_values _ _ Hv Ht Hnv Hnt).
  destruct (compare_values _ t); split; split; intros [Hc H]; split;
    try exact Hc; try reflexivity; discriminate.
Qed.

Lemma filters_compare_values_witness :
  valid (Py.Int 20) /\ Py.is_nan (Py.Int 20) = false /\
  valid (attribute_value (education Sample.autauga) "Bachelor's Degree or Higher") /\
  Py.is_nan (attribute_value (education Sample.autauga) "Bachelor's Degree or Higher") =
    false /\
  compare_values (attribute_value (education Sample.autauga) "Bachelor's Degree or Higher")
    (Py.Int 20) = Gt /\
  Sample.autauga ∈
    education_greater_than Sample.reduced_data "Bachelor's Degree or Higher" (Py.Int 20).
Proof.
  assert (Hv : valid (attribute_value (education Sample.autauga)
                        "Bachelor's Degree or Higher")) by (vm_compute; reflexivity).
  assert (Hc : compare_values
                 (attribute_value (education Sample.autauga) "Bachelor's Degree or Higher")
                 (Py.Int 20) = Gt) by (vm_compute; reflexivity).
  split; [exact I|]. split; [reflexivity|]. split; [exact Hv|]. split; [reflexivity|].
  split; [exact Hc|].
  apply (proj1 (filters_compare_values (Education "Bachelor's Degree or Higher")
                  Sample.reduced_data (Py.Int 20) Sample.autauga I eq_refl Hv eq_refl)).
  split; [apply list_elem_of_here | exact Hc].
Defined.

(** X17: thresholds are monotone.  For thresholds [low <= high] and values
    that are integers or doubles in canonical form, whatever passes the
    greater-than filter at [high] passes it at [low], and whatever passes the
    less-than filter at [low] passes it at [high]; so filtering at [low] and
    then at [high] is filtering at [high], and likewise downwards. *)
Theorem thresholds_are_monotone (a : attribute) (cs : list CountyDemographics)
    (low high : Py.num) :
  valid low -> valid high ->
  (forall c, c ∈ cs -> valid (attribute_value (mapping_of a c) (key_of a))) ->
  Py.lt low high = true \/ Py.eq low high = true ->
  (forall c, c ∈ greater_than a cs high -> c ∈ greater_than a cs low) /\
  (forall c, c ∈ less_than a cs low -> c ∈ less_than a cs high) /\
  greater_than a (greater_than a cs low) high = greater_than a cs high /\
  less_than a (less_than a cs high) low = less_than a cs low.
Proof.
  intros Hl Hh Hvalues Hle.
  split; [|split; [|split]].
  - intros c. rewrite !elem_of_greater_than. intros [Hc Hgt].
    split; [exact Hc|]. exact (gt_monotone low high _ Hl Hh (Hvalues c Hc) Hle Hgt).
  - intros c. rewrite !elem_of_less_than. intros [Hc Hlt].
    split; [exact Hc|]. exact (lt_monotone low high _ Hl Hh (Hvalues c Hc) Hle Hlt).
  - rewrite !greater_than_eq, comprehension_twice.
    apply comprehension_ext_in. intros c Hc. rewrite !get_is_attribute_value.
    destruct (Py.gt _ high) eqn:Hgt; [|apply andb_false_r].
    rewrite (gt_monotone low high _ Hl Hh (Hvalues c Hc) Hle Hgt). reflexivity.
  - rewrite !less_than_eq, comprehension_twice.
    apply comprehension_ext_in. intros c Hc. rewrite !get_is_attribute_value.
    destruct (Py.lt _ low) eqn:Hlt; [|apply andb_false_r].
    rewrite (lt_monotone low high _ Hl Hh (Hvalues c Hc) Hle Hlt). reflexivity.
Qed.

Lemma thresholds_are_monotone_witness :
  valid (Py.lit 150 1) /\ valid (Py.lit 200 1) /\
  (forall c, c ∈ Sample.reduced_data ->
     valid (attribute_value (education c) "Bachelor's Degree or Higher")) /\
  Py.lt (Py.lit 150 1) (Py.lit 200 1) = true /\
  education_greater_than
    (education_greater_than Sample.reduced_data "Bachelor's Degree or Higher" (Py.lit 150 1))
    "Bachelor's Degree or Higher" (Py.lit 200 1) =
  education_greater_than Sample.reduced_data "Bachelor's Degree or Higher" (Py.lit 200 1).
Proof.
  assert (Hl : valid (Py.lit 150 1)) by (vm_compute; reflexivity).
  assert (Hh : valid (Py.lit 200 1)) by (vm_compute; reflexivity).
  assert (Hv : forall c, c ∈ Sample.reduced_data ->
     valid (attribute_value (education c) "Bachelor's Degree or Higher")).
  { intros c Hc.
    repeat (apply elem_of_cons in Hc as [->|Hc]; [vm_compute; reflexivity|]).
    apply elem_of_nil in Hc. destruct Hc. }
  assert (Hlt : Py.lt (Py.lit 150 1) (Py.lit 200 1) = true) by (vm_compute; reflexivity).
  split; [exact Hl|]. split; [exact Hh|]. split; [exact Hv|]. split; [exact Hlt|].
  exact (proj1 (proj2 (proj2 (thresholds_are_monotone
           (Education "Bachelor's Degree or Higher") Sample.reduced_data
           (Py.lit 150 1) (Py.lit 200 1) Hl Hh Hv (or_introl Hlt))))).
Defined.

(** ** Concatenation *)

Lemma shr_fexp_exponent m e l :
  -1074 <= snd (shr_fexp Float64.prec Float64.emax m e l).
Proof.
  unfold shr_fexp, shr.
  destruct (fexp Float64.prec Float64.emax (Zdigits2 m + e) - e) eqn:Hn; simpl;
    unfold fexp, emin, Float64.prec, Float64.emax in *; lia.
Qed.

Lemma binary_round_aux_exponent sx mx ex lx :
  exponent_in_range (binary_round_aux Float64.prec Float64.emax sx mx ex lx).
Proof.
  unfold binary_round_aux.
  destruct (shr_fexp _ _ mx ex lx) as [mrs' e'].
  pose proof (shr_fexp_exponent
                (round_nearest_even (shr_m mrs') (loc_of_shr_record mrs')) e' loc_Exact) as H.
  destruct (shr_fexp _ _ _ e' loc_Exact) as [mrs'' e'']. simpl in H.
  destruct (shr_m mrs''); simpl; try exact I.
  destruct (_ <=? _); simpl; [exact H | exact I].
Qed.

Lemma binary_round_exponent sx mx ex :
  exponent_in_range (binary_round Float64.prec Float64.emax sx mx ex).
Proof.
  unfold binary_round. destruct (shl_align _ _ _). apply binary_round_aux_exponent.
Qed.

(** A product is zero, infinite, not a number, or finite with its exponent
    in range, whatever the factors are. *)
Lemma mul_exponent x y : exponent_in_range (Float64.mul x y).
Proof.
  destruct x as [sx|sx| |sx mx ex], y as [sy|sy| |sy my ey]; try exact I.
  apply binary_round_aux_exponent.
Qed.

(** A sum is minus zero only when its first term is. *)
Lemma add_running x y :
  exponent_in_range x -> x <> S754_zero true -> exponent_in_range y ->
  exponent_in_range (Float64.add x y) /\ Float64.add x y <> S754_zero true.
Proof.
  intros Hx Hnz Hy.
  destruct x as [sx|sx| |sx mx ex], y as [sy|sy| |sy my ey];
    try (split; [exact I | discriminate]);
    try (split; [assumption | discriminate]);
    try (destruct sx, sy; split; (exact I || discriminate || congruence)).
  unfold Float64.add, SFadd, binary_normalize. simpl in Hx, Hy.
  destruct (_ + _) as [|p|p].
  - split; [exact I | discriminate].
  - split; [apply binary_round_exponent|].
    pose proof (binary_round_not_zero false p (Z.min ex ey) ltac:(lia)) as H.
    intros E. rewrite E in H. discriminate.
  - split; [apply binary_round_exponent|].
    pose proof (binary_round_not_zero true p (Z.min ex ey) ltac:(lia)) as H.
    intros E. rewrite E in H. discriminate.
Qed.

Lemma add_zero_r x : x <> S754_zero true -> Float64.add x Float64.zero = x.
Proof. destruct x as [[]|[]| |]; intros H; try reflexivity. congruence. Qed.

Lemma add_zero_l x : x <> S754_zero true -> Float64.add Float64.zero x = x.
Proof. destruct x as [[]|[]| |]; intros H; try reflexivity. congruence. Qed.

Lemma add_from_zero x y :
  x <> S754_zero true ->
  Float64.add x (Float64.add Float64.zero y) = Float64.add x y.
Proof.
  intros H. destruct y as [[]|[]| |]; try reflexivity.
  destruct x as [[]|[]| |]; try reflexivity. congruence.
Qed.

(** The term a county adds is a float with its exponent in range. *)
Lemma share_of_term mapping key county x :
  share_of mapping key county = ok x ->
  exists y, x = Py.Float y /\ exponent_in_range y.
Proof.
  unfold share_of.
  destruct (Py.subscript _ _) as [e|percentage]; simpl; [discriminate|].
  destruct (population_2014 county) as [e|population]; simpl; [discriminate|].
  destruct (Py.truediv _ _) as [e|fraction] eqn:Hdiv; simpl; [discriminate|].
  pose proof (truediv_is_float _ _ _ Hdiv) as Hf.
  destruct fraction as [z|f]; [destruct Hf|].
  destruct population as [z|p]; unfold Py.mul; simpl.
  - destruct (Float64.of_int z); simpl; [discriminate|].
    intros [= <-]. eexists. split; [reflexivity | apply mul_exponent].
  - intros [= <-]. eexists. split; [reflexivity | apply mul_exponent].
Qed.

Lemma add_running_total total x r :
  running_total total ->
  (exists y, x = Py.Float y /\ exponent_in_range y) ->
  Py.add total x = ok r -> running_total r.
Proof.
  intros Ht (y & -> & Hy). destruct total as [z|t]; [destruct Ht|].
  destruct Ht as [Ht Hnz]. intros [= <-]. apply add_running; assumption.
Qed.

Lemma sum_running_total terms : forall total r,
  (forall term x, term ∈ terms -> term = ok x ->
     exists y, x = Py.Float y /\ exponent_in_range y) ->
  running_total total ->
  Py.sum terms total = ok r -> running_total r.
Proof.
  induction terms as [|term terms IH]; intros total r Hterms Htotal; simpl.
  - intros [= <-]. exact Htotal.
  - destruct term as [e|x] eqn:Hterm; simpl; [discriminate|].
    destruct (Py.add total x) as [e|t] eqn:Hadd; simpl; [discriminate|].
    apply IH.
    + intros term' x' Hin. apply Hterms. right. exact Hin.
    + apply (add_running_total total x t Htotal); [|exact Hadd].
      apply (Hterms (ok x)); [left | reflexivity].
Qed.

Lemma zero_running_total : running_total (Py.Float Float64.zero).
Proof. split; [exact I | discriminate]. Qed.

Lemma sub_population_holders a total cs :
  sub_population_loop (mapping_of a) (key_of a) total cs =
  Py.sum (map (share_of (mapping_of a) (key_of a)) (holders a cs)) total.
Proof. apply sub_population_loop_sum. Qed.

(** No sub-population is minus zero. *)
Lemma sub_population_running_total a cs r :
  sub_population a cs = ok r -> running_total r.
Proof.
  rewrite sub_population_eq, sub_population_holders.
  apply sum_running_total; [|apply zero_running_total].
  intros term x Hin ->.
  apply list_elem_of_fmap in Hin as (county & Hshare & _).
  apply (share_of_term (mapping_of a) (key_of a) county). symmetry. exact Hshare.
Qed.

Lemma sub_population_app a cs ds :
  sub_population a (cs ++ ds) =
  (t ← sub_population a cs;
   Py.sum (map (share_of (mapping_of a) (key_of a)) (holders a ds)) t).
Proof.
  rewrite !sub_population_eq, sub_population_loop_app.
  destruct (sub_population_loop _ _ _ cs); simpl; [reflexivity|].
  apply sub_population_holders.
Qed.

Lemma add_zero_running_total t :
  running_total t -> Py.add t (Py.Float Float64.zero) = ok t.
Proof.
  destruct t as [z|x]; [intros []|]. intros [_ Hnz].
  change (ok (Py.Float (Float64.add x Float64.zero)) = ok (Py.Float x)).
  rewrite (add_zero_r x Hnz). reflexivity.
Qed.

Lemma zero_add_running_total t :
  running_total t -> Py.add (Py.Float Float64.zero) t = ok t.
Proof.
  destruct t as [z|x]; [intros []|]. intros [_ Hnz].
  change (ok (Py.Float (Float64.add Float64.zero x)) = ok (Py.Float x)).
  rewrite (add_zero_l x Hnz). reflexivity.
Qed.

Lemma sub_population_additive a cs ds :
  (length (holders a ds) <= 1)%nat \/ holders a cs = [] ->
  sub_population a (cs ++ ds) =
  (x ← sub_population a cs; y ← sub_population a ds; Py.add x y).
Proof.
  intros [Hds|Hcs].
  - rewrite sub_population_app, (sub_population_eq a ds), sub_population_holders.
    destruct (sub_population a cs) as [e|t] eqn:Hcs; simpl; [reflexivity|].
    pose proof (sub_population_running_total a cs t Hcs) as Ht.
    destruct (holders a ds) as [|d [|d' l]]; simpl in *; [| |lia].
    + symmetry. apply add_zero_running_total, Ht.
    + destruct (share_of _ _ d) as [e|x] eqn:Hx; simpl; [reflexivity|].
      destruct (share_of_term _ _ _ _ Hx) as (y & -> & _).
      destruct t as [z|t]; [destruct Ht|]. destruct Ht as [_ Hnz].
      change (ok (Py.Float (Float64.add t y)) =
              ok (Py.Float (Float64.add t (Float64.add Float64.zero y)))).
      rewrite (add_from_zero t y Hnz). reflexivity.
  - rewrite sub_population_app.
    assert (Hzero : sub_population a cs = ok (Py.Float Float64.zero)).
    { rewrite sub_population_eq, sub_population_holders, Hcs. reflexivity. }
    rewrite Hzero. simpl.
    rewrite <- sub_population_holders, <- sub_population_eq.
    destruct (sub_population a ds) as [e|t] eqn:Hds; simpl; [reflexivity|].
    symmetry. apply zero_add_running_total.
    apply (sub_population_running_total a ds t Hds).
Qed.

(** C10, as stated, fails on the first three sample records, with one county
    in [cs] and two in [ds]: the sub-population of the whole list for
    ["High School or Higher"], [348191.422], differs in the last bit from
    the sum of the sub-population of the first record and that of the other
    two, [348191.42199999996]. *)
Lemma sub_population_not_additive :
  population_by_education
      ([Sample.autauga] ++ [Sample.crawford; Sample.san_luis_obispo])
      "High School or Higher" = ok (Py.lit 348191422 3) /\
  (a ← population_by_education [Sample.autauga] "High School or Higher";
   b ← population_by_education [Sample.crawford; Sample.san_luis_obispo]
         "High School or Higher";
   Py.add a b) = ok (Py.lit 34819142199999996 11) /\
  Py.eq (Py.lit 348191422 3) (Py.lit 34819142199999996 11) = false.
Proof. repeat split; vm_compute; reflexivity. Qed.

(** C10, amended: [population_total] is additive over concatenation when the
    populations are integers.  Each sub-population function is additive,
    [f (cs ++ ds) = f cs + f ds], whenever at most one county of [ds] has
    the key, or no county of [cs] has it; and whatever the lists are,
    [f (cs ++ ds)] is [f cs] with the terms of the counties of [ds] that
    have the key added to it one after the other, in list order. *)
Theorem concatenation_is_additive (cs ds : list CountyDemographics) :
  (forall pc pd,
      populations_are cs pc -> populations_are ds pd ->
      population_total (cs ++ ds) =
        (a ← population_total cs; b ← population_total ds; Py.add a b) /\
      population_total (cs ++ ds) = ok (Py.Int (Zsum pc + Zsum pd))) /\
  (forall a,
      (length (holders a ds) <= 1)%nat \/ holders a cs = [] ->
      sub_population a (cs ++ ds) =
        (x ← sub_population a cs; y ← sub_population a ds; Py.add x y)) /\
  (forall a,
      sub_population a (cs ++ ds) =
        (t ← sub_population a cs;
         Py.sum (map (share_of (mapping_of a) (key_of a)) (holders a ds)) t)).
Proof.
  split; [|split].
  - intros pc pd Hc Hd.
    rewrite (population_total_int _ _ Hc), (population_total_int _ _ Hd),
      (population_total_int _ _ (populations_are_app _ _ _ _ Hc Hd)).
    rewrite Zsum_app. split; reflexivity.
  - intros a. apply sub_population_additive.
  - intros a. apply sub_population_app.
Qed.

Lemma concatenation_is_additive_witness :
  (populations_are [Sample.autauga; Sample.crawford] [55395; 61697] /\
   populations_are [Sample.san_luis_obispo] [279083] /\
   population_total ([Sample.autauga; Sample.crawford] ++ [Sample.san_luis_obispo]) =
     ok (Py.Int (Zsum [55395; 61697] + Zsum [279083]))) /\
  ((length (holders (Education "High School or Higher") [Sample.san_luis_obispo]) <= 1)%nat /\
   population_by_education ([Sample.autauga; Sample.crawford] ++ [Sample.san_luis_obispo])
       "High School or Higher" =
     (x ← population_by_education [Sample.autauga; Sample.crawford]
            "High School or Higher";
      y ← population_by_education [Sample.san_luis_obispo] "High School or Higher";
      Py.add x y)).
Proof.
  assert (Hc : populations_are [Sample.autauga; Sample.crawford] [55395; 61697])
    by (repeat constructor).
  assert (Hd : populations_are [Sample.san_luis_obispo] [279083])
    by (repeat constructor).
  assert (Hone : (length (holders (Education "High School or Higher")
                            [Sample.san_luis_obispo]) <= 1)%nat)
    by (vm_compute; lia).
  split.
  - split; [exact Hc|]. split; [exact Hd|].
    exact (proj2 (proj1 (concatenation_is_additive _ _) _ _ Hc Hd)).
  - split; [exact Hone|].
    exact (proj1 (proj2 (concatenation_is_additive
                           [Sample.autauga; Sample.crawford] [Sample.san_luis_obispo]))
             (Education "High School or Higher") (or_introl Hone)).
Defined.
